(** * A shallow embedding of the weight monitor's latest-value store

    The program under study is the Flask application [app.py]: one JSON file
    per machine inside the directory [machine_data], written by
    [save_weight_data], read back by [load_weight_data], enumerated by
    [get_all_machines], and exposed through the routes [get_weight],
    [update_weight], [list_machines] and [health_check].

    Python values are modelled by the JSON values the handlers exchange,
    Python floats by the binary64 instance of [spec_float], texts by the
    bytes of their UTF-8 form, the directory by a finite map from file
    names to file contents, and the wall clock by a sequence of readings
    indexed by the number of [datetime.now()] calls made so far. The script
    of the page served at [/] is modelled by its variables, the elements it
    writes to, the intervals it has set and the requests it has in flight,
    whose answers it parses as the browser does. *)

From Stdlib Require Import ZArith Bool Ascii String List Lia.
From Stdlib Require Import Floats.SpecFloat.
From stdpp Require Import base option list strings gmap fin_maps.

#[local] Set Warnings "-register-all".

Local Open Scope string_scope.
Local Open Scope list_scope.
Local Open Scope Z_scope.

(** ** Python values *)

Module Py.

(** A Python [float] is an IEEE 754 binary64 number. *)
Definition prec : Z := 53.
Definition emax : Z := 1024.
Definition pyfloat : Type := spec_float.

Definition is_finite (f : pyfloat) : bool :=
  match f with
  | S754_zero _ | S754_finite _ _ _ => true
  | S754_infinity _ | S754_nan => false
  end.

(** The values produced by [request.get_json()] and [json.load]: the JSON
    literals, with numbers split as Python splits them ([int] and [float],
    the latter including the [NaN] and [Infinity] literals the [json]
    module accepts), strings as the bytes of their UTF-8 form, arrays as
    lists and objects as dictionaries in insertion order. *)
Inductive json : Type :=
  | JNull
  | JBool (b : bool)
  | JInt (z : Z)
  | JFloat (f : pyfloat)
  | JStr (s : string)
  | JList (l : list json)
  | JDict (d : list (string * json)).

(** The exceptions the handlers distinguish: [ValueError] has a clause of
    its own in [update_weight], every other one is caught as [Exception].
    Each carries the text [str(e)] renders. *)
Inductive exn : Type :=
  | ValueError (msg : string)
  | TypeError (msg : string)
  | KeyError (msg : string)
  | AttributeError (msg : string)
  | OverflowError (msg : string).

Definition exn_str (e : exn) : string :=
  match e with
  | ValueError m | TypeError m | KeyError m | AttributeError m | OverflowError m => m
  end.

Definition result (A : Type) : Type := exn + A.

Definition ret {A} (a : A) : result A := inr a.
Definition raise {A} (e : exn) : result A := inl e.
Definition bind {A B} (m : result A) (k : A -> result B) : result B :=
  match m with
  | inl e => inl e
  | inr a => k a
  end.

#[global] Instance result_ret : MRet result := @ret.
#[global] Instance result_bind : MBind result := fun A B k m => bind m k.
#[global] Instance result_fmap : FMap result :=
  fun A B f m => bind m (fun a => ret (f a)).

(** Truth value testing ([if data:], [not data]). *)
Definition truthy (v : json) : bool :=
  match v with
  | JNull => false
  | JBool b => b
  | JInt z => negb (z =? 0)
  | JFloat (S754_zero _) => false
  | JFloat _ => true
  | JStr s => negb (String.eqb s "")
  | JList l => match l with [] => false | _ => true end
  | JDict d => match d with [] => false | _ => true end
  end.

(** Dictionary lookup by key; the first binding of a key is the live one. *)
Fixpoint dict_get (k : string) (d : list (string * json)) : option json :=
  match d with
  | [] => None
  | (k', v) :: d' => if String.eqb k k' then Some v else dict_get k d'
  end.

(** [s.startswith(p)] *)
Fixpoint startswith (p s : string) : bool :=
  match p, s with
  | EmptyString, _ => true
  | String a p', String b s' => Ascii.eqb a b && startswith p' s'
  | String _ _, EmptyString => false
  end.

(** [p in s] for strings: [p] occurs in [s] as a substring. *)
Fixpoint contains (p s : string) : bool :=
  startswith p s ||
  match s with
  | EmptyString => false
  | String _ s' => contains p s'
  end.

(** [k in v] *)
Definition py_in (k : string) (v : json) : result bool :=
  match v with
  | JDict d => ret (match dict_get k d with Some _ => true | None => false end)
  | JList l =>
      ret (existsb (fun x => match x with JStr s => String.eqb s k | _ => false end) l)
  | JStr s => ret (contains k s)
  | JNull => raise (TypeError "argument of type 'NoneType' is not iterable")
  | JBool _ => raise (TypeError "argument of type 'bool' is not iterable")
  | JInt _ => raise (TypeError "argument of type 'int' is not iterable")
  | JFloat _ => raise (TypeError "argument of type 'float' is not iterable")
  end.

(** [v[k]] with a string subscript *)
Definition subscript (v : json) (k : string) : result json :=
  match v with
  | JDict d =>
      match dict_get k d with
      | Some x => ret x
      | None => raise (KeyError ("'" +:+ k +:+ "'"))
      end
  | JList _ => raise (TypeError "list indices must be integers or slices, not str")
  | JStr _ => raise (TypeError "string indices must be integers, not 'str'")
  | JNull => raise (TypeError "'NoneType' object is not subscriptable")
  | JBool _ => raise (TypeError "'bool' object is not subscriptable")
  | JInt _ => raise (TypeError "'int' object is not subscriptable")
  | JFloat _ => raise (TypeError "'float' object is not subscriptable")
  end.

(** [v.get(k, default)]: a method of dictionaries only. *)
Definition method_get (v : json) (k : string) (default : json) : result json :=
  match v with
  | JDict d =>
      match dict_get k d with
      | Some x => ret x
      | None => ret default
      end
  | _ => raise (AttributeError "object has no attribute 'get'")
  end.

(** *** The [float()] constructor

    [float(x)] accepts a float, an int (rounded to nearest even, with
    [OverflowError] beyond the binary64 range), a bool, and a string holding
    a decimal literal, [inf], [infinity] or [nan] in any case, with an
    optional sign, surrounding white space and single underscores between
    digits. A string outside that grammar raises [ValueError]; any other
    argument raises [TypeError].

    A [str] is held as the bytes of its UTF-8 form. [float] first rewrites
    a text that is not pure ASCII: every Unicode white space becomes a
    blank and every Unicode decimal digit the ASCII digit of its value;
    the text is cut at the first other character above U+007E, which a
    question mark replaces. A pure ASCII text is read as it stands. *)

Definition code (c : ascii) : Z := Z.of_nat (nat_of_ascii c).

Definition chr (z : Z) : ascii := ascii_of_nat (Z.to_nat z).

Definition is_digit (c : ascii) : bool := (48 <=? code c) && (code c <=? 57).

(** The white space of the C locale: the blank and the controls from
    tab to carriage return. *)
Definition is_space (c : ascii) : bool :=
  ((9 <=? code c) && (code c <=? 13)) || (code c =? 32).

(** The six payload bits of a continuation byte. *)
Definition continuation (c : ascii) : option Z :=
  if (128 <=? code c) && (code c <? 192) then Some (code c - 128) else None.

(** The code points of a text, from its UTF-8 form; lone surrogates,
    which a [str] may hold, are read like any other three-byte form. *)
Fixpoint code_points (l : list ascii) : option (list Z) :=
  match l with
  | [] => Some []
  | a :: r =>
      if code a <? 128 then cons (code a) <$> code_points r
      else if code a <? 192 then None
      else if code a <? 224 then
        match r with
        | b :: r' =>
            x ← continuation b;
            cons ((code a - 192) * 64 + x) <$> code_points r'
        | _ => None
        end
      else if code a <? 240 then
        match r with
        | b :: c :: r' =>
            x ← continuation b;
            y ← continuation c;
            cons (((code a - 224) * 64 + x) * 64 + y) <$> code_points r'
        | _ => None
        end
      else if code a <? 248 then
        match r with
        | b :: c :: d :: r' =>
            x ← continuation b;
            y ← continuation c;
            z ← continuation d;
            cons ((((code a - 240) * 64 + x) * 64 + y) * 64 + z) <$> code_points r'
        | _ => None
        end
      else None
  end.

(** [str.isspace] on one character: the white space of Unicode. *)
Definition unicode_isspace (cp : Z) : bool :=
  ((0x9 <=? cp) && (cp <=? 0xD)) || ((0x1C <=? cp) && (cp <=? 0x20))
  || (cp =? 0x85) || (cp =? 0xA0) || (cp =? 0x1680)
  || ((0x2000 <=? cp) && (cp <=? 0x200A))
  || (cp =? 0x2028) || (cp =? 0x2029) || (cp =? 0x202F) || (cp =? 0x205F)
  || (cp =? 0x3000).

(** The decimal digits of Unicode 14 come in runs of ten, zero first; these
    are the zeros. *)
Definition decimal_zeros : list Z :=
  [ 0x30; 0x660; 0x6F0; 0x7C0; 0x966; 0x9E6; 0xA66; 0xAE6;
    0xB66; 0xBE6; 0xC66; 0xCE6; 0xD66; 0xDE6; 0xE50; 0xED0;
    0xF20; 0x1040; 0x1090; 0x17E0; 0x1810; 0x1946; 0x19D0; 0x1A80;
    0x1A90; 0x1B50; 0x1BB0; 0x1C40; 0x1C50; 0xA620; 0xA8D0; 0xA900;
    0xA9D0; 0xA9F0; 0xAA50; 0xABF0; 0xFF10; 0x104A0; 0x10D30; 0x11066;
    0x110F0; 0x11136; 0x111D0; 0x112F0; 0x11450; 0x114D0; 0x11650; 0x116C0;
    0x11730; 0x118E0; 0x11950; 0x11C50; 0x11D50; 0x11DA0; 0x16A60; 0x16AC0;
    0x16B50; 0x1D7CE; 0x1D7D8; 0x1D7E2; 0x1D7EC; 0x1D7F6; 0x1E140; 0x1E2F0;
    0x1E950; 0x1FBF0 ].

Definition unicode_todecimal (cp : Z) : option Z :=
  (fun zero => cp - zero) <$>
  find (fun zero => (zero <=? cp) && (cp <? zero + 10)) decimal_zeros.

Fixpoint decimal_and_space_to_ascii (cps : list Z) : list ascii :=
  match cps with
  | [] => []
  | cp :: r =>
      if cp <? 127 then chr cp :: decimal_and_space_to_ascii r
      else if unicode_isspace cp then " "%char :: decimal_and_space_to_ascii r
      else
        match unicode_todecimal cp with
        | Some d => chr (48 + d) :: decimal_and_space_to_ascii r
        | None => ["?"%char]
        end
  end.

Definition ascii_text (l : list ascii) : option (list ascii) :=
  if forallb (fun c => code c <? 128) l then Some l
  else decimal_and_space_to_ascii <$> code_points l.

Definition to_lower (c : ascii) : ascii :=
  if (65 <=? code c) && (code c <=? 90)
  then ascii_of_nat (nat_of_ascii c + 32)
  else c.

Fixpoint lstrip (l : list ascii) : list ascii :=
  match l with
  | c :: r => if is_space c then lstrip r else l
  | [] => []
  end.

Definition strip (l : list ascii) : list ascii := rev (lstrip (rev (lstrip l))).

(** Underscores are only allowed between two digits; they are removed
    before anything else is read. *)
Fixpoint drop_underscores (prev_digit : bool) (l : list ascii) : option (list ascii) :=
  match l with
  | [] => Some []
  | c :: r =>
      if Ascii.eqb c "_" then
        match r with
        | d :: _ => if prev_digit && is_digit d then drop_underscores false r else None
        | [] => None
        end
      else cons c <$> drop_underscores (is_digit c) r
  end.

Definition parse_sign (l : list ascii) : bool * list ascii :=
  match l with
  | c :: r =>
      if Ascii.eqb c "-" then (true, r)
      else if Ascii.eqb c "+" then (false, r)
      else (false, l)
  | [] => (false, l)
  end.

Fixpoint span_digits (l : list ascii) : list ascii * list ascii :=
  match l with
  | c :: r =>
      if is_digit c then let '(ds, rest) := span_digits r in (c :: ds, rest)
      else ([], l)
  | [] => ([], [])
  end.

Definition digits_value (ds : list ascii) : Z :=
  fold_left (fun acc c => 10 * acc + (code c - 48)) ds 0.

(** The binary64 number nearest to [(-1)^s * m * 10^e], ties to even. *)
Definition of_decimal (s : bool) (m e : Z) : pyfloat :=
  match m with
  | Zpos p =>
      if 0 <=? e
      then binary_normalize prec emax (cond_Zopp s (m * 10 ^ e)) 0 s
      else SFdiv prec emax (S754_finite s p 0)
                           (S754_finite false (Z.to_pos (10 ^ (- e))) 0)
  | _ => S754_zero s
  end.

Definition parse_number (s : bool) (l : list ascii) : option pyfloat :=
  let '(ip, r1) := span_digits l in
  let '(fp, r2) :=
    match r1 with
    | c :: r => if Ascii.eqb c "." then span_digits r else ([], r1)
    | [] => ([], r1)
    end in
  match ip ++ fp with
  | [] => None
  | ds =>
      let m := digits_value ds in
      let scale := - Z.of_nat (length fp) in
      match r2 with
      | [] => Some (of_decimal s m scale)
      | c :: r3 =>
          if Ascii.eqb (to_lower c) "e" then
            let '(es, r4) := parse_sign r3 in
            match span_digits r4 with
            | (d :: ds', []) =>
                Some (of_decimal s m (cond_Zopp es (digits_value (d :: ds')) + scale))
            | _ => None
            end
          else None
      end
  end.

(** The text is made ASCII, its underscores are checked and removed, the
    white space at its two ends is skipped, and what is left has to be one
    literal from end to end. *)
Definition float_of_chars (l : list ascii) : option pyfloat :=
  l0 ← ascii_text l;
  l1 ← drop_underscores false l0;
  let '(s, r) := parse_sign (strip l1) in
  let low := string_of_list_ascii (map to_lower r) in
  if String.eqb low "inf" || String.eqb low "infinity" then Some (S754_infinity s)
  else if String.eqb low "nan" then Some S754_nan
  else parse_number s r.

Definition float_of_int (z : Z) : result pyfloat :=
  match binary_normalize prec emax z 0 false with
  | S754_infinity _ => raise (OverflowError "int too large to convert to float")
  | f => ret f
  end.

Definition float (v : json) : result pyfloat :=
  match v with
  | JFloat f => ret f
  | JInt z => float_of_int z
  | JBool b => float_of_int (if b then 1 else 0)
  | JStr s =>
      match float_of_chars (list_ascii_of_string s) with
      | Some f => ret f
      | None => raise (ValueError ("could not convert string to float: '" +:+ s +:+ "'"))
      end
  | JNull => raise (TypeError "float() argument must be a string or a real number, not 'NoneType'")
  | JList _ => raise (TypeError "float() argument must be a string or a real number, not 'list'")
  | JDict _ => raise (TypeError "float() argument must be a string or a real number, not 'dict'")
  end.

(** *** String methods *)

(** [Some rest] when [s = p ++ rest]. *)
Fixpoint strip_prefix (p s : string) : option string :=
  match p, s with
  | EmptyString, _ => Some s
  | String a p', String b s' => if Ascii.eqb a b then strip_prefix p' s' else None
  | String _ _, EmptyString => None
  end.

(** [s.endswith(p)]: [p] is one of the suffixes of [s]. *)
Fixpoint endswith (p s : string) : bool :=
  String.eqb p s ||
  match s with
  | EmptyString => false
  | String _ s' => endswith p s'
  end.

(** [s.replace(old, new)] scans [s] from the left and substitutes every
    occurrence of [old] that does not overlap an earlier one. The scan is
    driven by a counter that the length of [s] bounds. *)
Fixpoint replace_from (fuel : nat) (old new s : string) : string :=
  match fuel with
  | O => s
  | S n =>
      match strip_prefix old s with
      | Some rest => new +:+ replace_from n old new rest
      | None =>
          match s with
          | EmptyString => EmptyString
          | String c s' => String c (replace_from n old new s')
          end
      end
  end.

(** With an empty [old], [new] is inserted around every character. *)
Fixpoint intersperse (new s : string) : string :=
  match s with
  | EmptyString => new
  | String c s' => new +:+ String c (intersperse new s')
  end.

Definition replace (old new s : string) : string :=
  match old with
  | EmptyString => intersperse new s
  | String _ _ => replace_from (String.length s) old new s
  end.

(** [str(n).zfill(width)] for the fixed-width fields of a time stamp. *)
Fixpoint zpad (width : nat) (z : Z) : string :=
  match width with
  | O => EmptyString
  | S w => zpad w (z / 10) +:+ String (ascii_of_nat (48 + Z.to_nat (z mod 10))) EmptyString
  end.

End Py.

(** ** The wall clock *)

Module Clock.

(** A naive [datetime], field by field. *)
Record datetime : Type := mk_datetime {
  year : Z; month : Z; day : Z;
  hour : Z; minute : Z; second : Z; microsecond : Z
}.

Definition fields (d : datetime) : list Z :=
  [year d; month d; day d; hour d; minute d; second d; microsecond d].

(** [a <= b] on datetimes compares the fields in order. *)
Fixpoint lex_leb (a b : list Z) : bool :=
  match a, b with
  | x :: a', y :: b' => (x <? y) || ((x =? y) && lex_leb a' b')
  | [], _ => true
  | _ :: _, [] => false
  end.

Definition dt_leb (a b : datetime) : bool := lex_leb (fields a) (fields b).
Definition dt_le (a b : datetime) : Prop := dt_leb a b = true.

(** [d.isoformat()]: the fraction is printed only when it is not zero. *)
Definition isoformat (d : datetime) : string :=
  Py.zpad 4 (year d) +:+ "-" +:+ Py.zpad 2 (month d) +:+ "-" +:+ Py.zpad 2 (day d) +:+ "T" +:+
  Py.zpad 2 (hour d) +:+ ":" +:+ Py.zpad 2 (minute d) +:+ ":" +:+ Py.zpad 2 (second d) +:+
  (if microsecond d =? 0 then "" else "." +:+ Py.zpad 6 (microsecond d)).

(** [d.strftime('%Y-%m-%d %H:%M:%S')] *)
Definition strftime (d : datetime) : string :=
  Py.zpad 4 (year d) +:+ "-" +:+ Py.zpad 2 (month d) +:+ "-" +:+ Py.zpad 2 (day d) +:+ " " +:+
  Py.zpad 2 (hour d) +:+ ":" +:+ Py.zpad 2 (minute d) +:+ ":" +:+ Py.zpad 2 (second d).

End Clock.

(** ** The application *)

Module App.
Import Py Clock.

(** *** The file system

    A file either holds text that [json.load] decodes to a value, or text
    that it rejects (an empty, truncated or otherwise malformed file). What
    [json.dump] writes, [json.load] reads back: strings, floats (the
    shortest text that denotes them, [NaN] and [Infinity] included) and
    dictionaries with string keys survive the trip. The store is a finite
    map from paths to files. *)
Inductive file : Type :=
  | FJson (v : json)
  | FGarbage.

Record world : Type := mk_world {
  files : gmap string file;
  ticks : nat
}.

Definition initial : world := {| files := ∅; ticks := 0 |}.

(** What the persistence layer does to [open(file_path, 'w')] followed by
    [json.dump]: both succeed; [open] raises, before the file is touched;
    or [open] has created or truncated the file and the write then raises,
    which leaves an empty or partial text behind. *)
Inductive write_fault : Type :=
  | NoFault
  | OpenFails
  | DumpFails.

Definition write (path : string) (f : file) (w : world) : world :=
  {| files := <[path := f]> (files w); ticks := ticks w |}.

Definition path_join (a b : string) : string := a +:+ "/" +:+ b.

(** [os.listdir(d)]: the names of the entries of [d], in the order the
    file system yields them. *)
Definition listdir (d : string) (fs : gmap string file) : list string :=
  omap (fun kv => strip_prefix (d +:+ "/") (fst kv)) (map_to_list fs).

(** *** Responses *)

Record response : Type := mk_response {
  body : list (string * json);
  status_code : Z
}.

Definition jsonify (d : list (string * json)) : response :=
  {| body := d; status_code := 200 |}.

Definition with_status (r : response) (c : Z) : response :=
  {| body := body r; status_code := c |}.

Definition field (k : string) (r : response) : option json := dict_get k (body r).

(** The handler registered for uncaught exceptions. *)
Definition internal_error : response :=
  with_status (jsonify [("status", JStr "error"); ("message", JStr "Internal server error")]) 500.

(** *** Configuration and helper functions *)

Definition DATA_DIR : string := "machine_data".

Definition get_machine_file (machine_id : string) : string :=
  path_join DATA_DIR ("machine_" +:+ machine_id +:+ ".json").

Section WithClock.

(** [clock n] is what the [n]-th call of [datetime.now()] returns. *)
Variable clock : nat -> datetime.

Definition now (w : world) : datetime * world :=
  (clock (ticks w), {| files := files w; ticks := S (ticks w) |}).

Definition save_weight_data (fault : write_fault) (machine_id : string)
    (weight : pyfloat) (w : world) : bool * world :=
  let '(t1, w1) := now w in
  let '(t2, w2) := now w1 in
  let data := JDict [("machine_id", JStr machine_id);
                     ("weight", JFloat weight);
                     ("timestamp", JStr (isoformat t1));
                     ("last_updated", JStr (strftime t2))] in
  let file_path := get_machine_file machine_id in
  match fault with
  | NoFault => (true, write file_path (FJson data) w2)
  | OpenFails => (false, w2)
  | DumpFails => (false, write file_path FGarbage w2)
  end.

(** [None] is [JNull]: a missing file, a file that does not decode and a
    file holding [null] all give it. *)
Definition load_weight_data (machine_id : string) (w : world) : json :=
  let file_path := get_machine_file machine_id in
  match files w !! file_path with
  | Some (FJson v) => v
  | Some FGarbage => JNull
  | None => JNull
  end.

(** One turn of the loop of [get_all_machines]: the summary the entry
    [filename] contributes, if any. *)
Definition machine_entry (w : world) (filename : string) : result (option json) :=
  if startswith "machine_" filename && endswith ".json" filename then
    let machine_id := replace ".json" "" (replace "machine_" "" filename) in
    let data := load_weight_data machine_id w in
    if truthy data then
      weight ← subscript data "weight";
      last_updated ← method_get data "last_updated" (JStr "Unknown");
      mret (Some (JDict [("machine_id", JStr machine_id);
                         ("weight", weight);
                         ("last_updated", last_updated)]))
    else mret None
  else mret None.

Fixpoint collect (w : world) (filenames : list string) (machines : list json)
    : result (list json) :=
  match filenames with
  | [] => mret machines
  | filename :: rest =>
      o ← machine_entry w filename;
      collect w rest (match o with Some m => machines ++ [m] | None => machines end)
  end.

Definition get_all_machines (w : world) : list json :=
  match collect w (listdir DATA_DIR (files w)) [] with
  | inr machines => machines
  | inl _ => []
  end.

(** *** Routes *)

Definition get_weight (machine_id : string) (w : world) : response :=
  let data := load_weight_data machine_id w in
  if truthy data then
    match (weight ← subscript data "weight";
           timestamp ← subscript data "timestamp";
           mret (jsonify [("status", JStr "success");
                          ("machine_id", JStr machine_id);
                          ("weight", weight);
                          ("timestamp", timestamp)])) with
    | inr r => r
    | inl _ => internal_error
    end
  else
    jsonify [("status", JStr "no_data");
             ("message", JStr ("No weight data available for Machine " +:+ machine_id))].

(** Every exception of the [try] block is raised before the store is
    written, so the handlers of [except] see the world unchanged. *)
Definition update_weight (fault : write_fault) (machine_id : string) (data : json)
    (w : world) : response * world :=
  let attempt : result (response * world) :=
    missing ← (if negb (truthy data) then mret true else negb <$> py_in "weight" data);
    if (missing : bool) then
      mret (with_status (jsonify [("status", JStr "error");
                                  ("message", JStr "No weight data provided")]) 400, w)
    else
      v ← subscript data "weight";
      weight ← float v;
      let '(saved, w1) := save_weight_data fault machine_id weight w in
      if (saved : bool) then
        let '(t, w2) := now w1 in
        mret (jsonify [("status", JStr "success");
                       ("message", JStr ("Weight updated for Machine " +:+ machine_id));
                       ("machine_id", JStr machine_id);
                       ("weight", JFloat weight);
                       ("timestamp", JStr (isoformat t))], w2)
      else
        mret (with_status (jsonify [("status", JStr "error");
                                    ("message", JStr "Failed to save weight data")]) 500, w1)
  in
  match attempt with
  | inr r => r
  | inl (ValueError _) =>
      (with_status (jsonify [("status", JStr "error");
                             ("message", JStr "Invalid weight format")]) 400, w)
  | inl e =>
      (with_status (jsonify [("status", JStr "error");
                             ("message", JStr (exn_str e))]) 500, w)
  end.

Definition list_machines (w : world) : response :=
  let machines := get_all_machines w in
  jsonify [("status", JStr "success");
           ("machines", JList machines);
           ("count", JInt (Z.of_nat (length machines)))].

Definition health_check (w : world) : response * world :=
  let machines := get_all_machines w in
  let '(t, w1) := now w in
  (jsonify [("status", JStr "healthy");
            ("timestamp", JStr (isoformat t));
            ("machines_count", JInt (Z.of_nat (length machines)))], w1).

(** *** Runs of the server *)

(** A submission comes with what the persistence layer does to its
    write. *)
Inductive request : Type :=
  | Submit (machine_id : string) (payload : json) (fault : write_fault)
  | GetLatest (machine_id : string)
  | ListMachines
  | Health.

Definition handle (r : request) (w : world) : response * world :=
  match r with
  | Submit machine_id payload fault => update_weight fault machine_id payload w
  | GetLatest machine_id => (get_weight machine_id w, w)
  | ListMachines => (list_machines w, w)
  | Health => health_check w
  end.

(** The responses given to a sequence of requests, and the final world. *)
Fixpoint run (rs : list request) (w : world) : list (request * response) * world :=
  match rs with
  | [] => ([], w)
  | r :: rs' =>
      let '(resp, w1) := handle r w in
      let '(log, w2) := run rs' w1 in
      ((r, resp) :: log, w2)
  end.

End WithClock.

End App.

(** ** The page

    The script of the page served at [/]: its five variables, the
    elements of the document it writes to, the intervals it has set and the
    requests it has in flight. The markup a function puts into the
    [content] element is represented by its kind and by the values the
    function substitutes into it. *)

Module Client.
Import Py.

(** What an interval calls. *)
Inductive callback : Type :=
  | CbGetWeight
  | CbCountdown.

(** What the [content] element shows: the spinner of the served page, the
    weight card with [data.weight], [data.machine_id] and [data.timestamp],
    the note with [selectedMachine] and [data.message], or the error with
    its message. A property the object does not have is [None]. *)
Inductive pane : Type :=
  | PaneLoading
  | PaneWeight (weight machine_id timestamp : option json)
  | PaneNoData (machine : string) (message : option json)
  | PaneError (message : json).

Record dom : Type := mk_dom {
  machineBtn_active : string;
  getWeightBtn_disabled : bool;
  getWeightBtn_innerHTML : string;
  statusDot_className : string;
  statusText_textContent : string;
  autoBtn_textContent : string;
  autoBtn_active : bool;
  autoInfo_textContent : string;
  content : pane
}.

Record page : Type := mk_page {
  selectedMachine : string;
  autoRefresh : bool;
  autoInterval : option nat;
  countdown : Z;
  countdownInterval : option nat;
  document : dom;
  timers : gmap nat callback;
  next_timer : nat;
  pending : list string
}.

Definition initial_page : page := {|
  selectedMachine := "1";
  autoRefresh := false;
  autoInterval := None;
  countdown := 5;
  countdownInterval := None;
  document := {|
    machineBtn_active := "1";
    getWeightBtn_disabled := false;
    getWeightBtn_innerHTML := "
                🔄 Get Weight
            ";
    statusDot_className := "status-dot";
    statusText_textContent := "Initializing...";
    autoBtn_textContent := "
                Auto: OFF
            ";
    autoBtn_active := false;
    autoInfo_textContent := "";
    content := PaneLoading |};
  timers := ∅;
  next_timer := 1;
  pending := []
|}.

(** The truth value of a property, [None] being [undefined]. *)
Definition js_truthy (v : option json) : bool :=
  match v with
  | None | Some JNull => false
  | Some (JBool b) => b
  | Some (JInt z) => negb (z =? 0)
  | Some (JFloat (S754_zero _)) | Some (JFloat S754_nan) => false
  | Some (JFloat _) => true
  | Some (JStr s) => negb (String.eqb s "")
  | Some (JList _) | Some (JDict _) => true
  end.

(** [v.k] for one of the property names the script reads. *)
Definition prop (v : json) (k : string) : result (option json) :=
  match v with
  | JNull => raise (TypeError ("Cannot read properties of null (reading '" +:+ k +:+ "')"))
  | JDict d => ret (dict_get k d)
  | _ => ret None
  end.

(** The decimal text of an integer, as a template literal prints it. *)
Fixpoint digits_of (fuel : nat) (n : Z) (acc : string) : string :=
  match fuel with
  | O => acc
  | S fuel' =>
      let acc' := String (ascii_of_nat (48 + Z.to_nat (n mod 10))) acc in
      if n / 10 =? 0 then acc' else digits_of fuel' (n / 10) acc'
  end.

Definition string_of_Z (n : Z) : string :=
  if n <? 0 then "-" +:+ digits_of (S (Z.to_nat (Z.log2 (- n)))) (- n) ""
  else digits_of (S (Z.to_nat (Z.log2 n))) n "".

Definition with_document (d : dom) (p : page) : page :=
  {| selectedMachine := selectedMachine p; autoRefresh := autoRefresh p;
     autoInterval := autoInterval p; countdown := countdown p;
     countdownInterval := countdownInterval p; document := d;
     timers := timers p; next_timer := next_timer p; pending := pending p |}.

Definition with_countdown (n : Z) (p : page) : page :=
  {| selectedMachine := selectedMachine p; autoRefresh := autoRefresh p;
     autoInterval := autoInterval p; countdown := n;
     countdownInterval := countdownInterval p; document := document p;
     timers := timers p; next_timer := next_timer p; pending := pending p |}.

Definition set_getWeightBtn (disabled : bool) (innerHTML : string) (d : dom) : dom :=
  {| machineBtn_active := machineBtn_active d;
     getWeightBtn_disabled := disabled; getWeightBtn_innerHTML := innerHTML;
     statusDot_className := statusDot_className d;
     statusText_textContent := statusText_textContent d;
     autoBtn_textContent := autoBtn_textContent d; autoBtn_active := autoBtn_active d;
     autoInfo_textContent := autoInfo_textContent d; content := content d |}.

Definition set_status (className text : string) (d : dom) : dom :=
  {| machineBtn_active := machineBtn_active d;
     getWeightBtn_disabled := getWeightBtn_disabled d;
     getWeightBtn_innerHTML := getWeightBtn_innerHTML d;
     statusDot_className := className; statusText_textContent := text;
     autoBtn_textContent := autoBtn_textContent d; autoBtn_active := autoBtn_active d;
     autoInfo_textContent := autoInfo_textContent d; content := content d |}.

Definition set_autoBtn (text : string) (active : bool) (d : dom) : dom :=
  {| machineBtn_active := machineBtn_active d;
     getWeightBtn_disabled := getWeightBtn_disabled d;
     getWeightBtn_innerHTML := getWeightBtn_innerHTML d;
     statusDot_className := statusDot_className d;
     statusText_textContent := statusText_textContent d;
     autoBtn_textContent := text; autoBtn_active := active;
     autoInfo_textContent := autoInfo_textContent d; content := content d |}.

Definition set_autoInfo (text : string) (d : dom) : dom :=
  {| machineBtn_active := machineBtn_active d;
     getWeightBtn_disabled := getWeightBtn_disabled d;
     getWeightBtn_innerHTML := getWeightBtn_innerHTML d;
     statusDot_className := statusDot_className d;
     statusText_textContent := statusText_textContent d;
     autoBtn_textContent := autoBtn_textContent d; autoBtn_active := autoBtn_active d;
     autoInfo_textContent := text; content := content d |}.

Definition set_content (c : pane) (d : dom) : dom :=
  {| machineBtn_active := machineBtn_active d;
     getWeightBtn_disabled := getWeightBtn_disabled d;
     getWeightBtn_innerHTML := getWeightBtn_innerHTML d;
     statusDot_className := statusDot_className d;
     statusText_textContent := statusText_textContent d;
     autoBtn_textContent := autoBtn_textContent d; autoBtn_active := autoBtn_active d;
     autoInfo_textContent := autoInfo_textContent d; content := c |}.

Definition set_machineBtn (machineId : string) (d : dom) : dom :=
  {| machineBtn_active := machineId;
     getWeightBtn_disabled := getWeightBtn_disabled d;
     getWeightBtn_innerHTML := getWeightBtn_innerHTML d;
     statusDot_className := statusDot_className d;
     statusText_textContent := statusText_textContent d;
     autoBtn_textContent := autoBtn_textContent d; autoBtn_active := autoBtn_active d;
     autoInfo_textContent := autoInfo_textContent d; content := content d |}.

(** [setInterval(cb, ms)] and [clearInterval(id)] *)
Definition setInterval (cb : callback) (p : page) : nat * page :=
  (next_timer p,
   {| selectedMachine := selectedMachine p; autoRefresh := autoRefresh p;
      autoInterval := autoInterval p; countdown := countdown p;
      countdownInterval := countdownInterval p; document := document p;
      timers := <[next_timer p := cb]> (timers p); next_timer := S (next_timer p);
      pending := pending p |}).

Definition clearInterval (id : nat) (p : page) : page :=
  {| selectedMachine := selectedMachine p; autoRefresh := autoRefresh p;
     autoInterval := autoInterval p; countdown := countdown p;
     countdownInterval := countdownInterval p; document := document p;
     timers := delete id (timers p); next_timer := next_timer p;
     pending := pending p |}.

(** [if (id) clearInterval(id)]: [null] and 0 are false. *)
Definition clear_if_set (id : option nat) (p : page) : page :=
  match id with
  | Some (S n) => clearInterval (S n) p
  | _ => p
  end.

Definition updateStatus (type text : string) (p : page) : page :=
  let className :=
    if String.eqb type "success" then "status-dot success"
    else if String.eqb type "waiting" then "status-dot waiting"
    else if String.eqb type "error" then "status-dot error"
    else "status-dot" in
  with_document (set_status className text (document p)) p.

Definition updateAutoInfo (p : page) : page :=
  if autoRefresh p then
    with_document
      (set_autoInfo ("Next refresh in " +:+ string_of_Z (countdown p) +:+ " seconds...")
         (document p)) p
  else p.

Definition resetCountdown (p : page) : page :=
  if autoRefresh p then updateAutoInfo (with_countdown 5 p) else p.

(** The function the one-second interval calls. *)
Definition countdown_tick (p : page) : page :=
  let p1 := with_countdown (countdown p - 1) p in
  let p2 := if countdown p1 <=? 0 then with_countdown 5 p1 else p1 in
  updateAutoInfo p2.

Definition getWeight (p : page) : page :=
  let p1 := with_document (set_getWeightBtn true "⏳ Loading..." (document p)) p in
  let p2 := updateStatus "loading"
              ("Fetching Machine " +:+ selectedMachine p1 +:+ " data...") p1 in
  {| selectedMachine := selectedMachine p2; autoRefresh := autoRefresh p2;
     autoInterval := autoInterval p2; countdown := countdown p2;
     countdownInterval := countdownInterval p2; document := document p2;
     timers := timers p2; next_timer := next_timer p2;
     pending := pending p2 ++ [selectedMachine p2] |}.

Definition selectMachine (machineId : string) (p : page) : page :=
  let p1 :=
    {| selectedMachine := machineId; autoRefresh := autoRefresh p;
       autoInterval := autoInterval p; countdown := countdown p;
       countdownInterval := countdownInterval p;
       document := set_machineBtn machineId (document p);
       timers := timers p; next_timer := next_timer p; pending := pending p |} in
  getWeight p1.

(** [error.message || 'Unknown error'] *)
Definition handleError (message : option json) (p : page) : page :=
  let p1 := with_document (set_getWeightBtn false "🔄 Get Weight" (document p)) p in
  let p2 := updateStatus "error" "Error occurred" p1 in
  let shown := match message with
               | Some m => if js_truthy message then m else JStr "Unknown error"
               | None => JStr "Unknown error"
               end in
  with_document (set_content (PaneError shown) (document p2)) p2.

(** [displayWeight(data)]: the page it leaves, and the exception it
    throws, if any, for [getWeight] to catch. *)
Definition displayWeight (data : json) (p : page) : page * option exn :=
  let p1 := with_document (set_getWeightBtn false "🔄 Get Weight" (document p)) p in
  match prop data "status" with
  | inl e => (p1, Some e)
  | inr status =>
      match status with
      | Some (JStr "success") =>
          let p2 := updateStatus "success" "Data received" p1 in
          let card := PaneWeight (dict_get "weight" (match data with JDict d => d | _ => [] end))
                        (dict_get "machine_id" (match data with JDict d => d | _ => [] end))
                        (dict_get "timestamp" (match data with JDict d => d | _ => [] end)) in
          (resetCountdown (with_document (set_content card (document p2)) p2), None)
      | Some (JStr "no_data") =>
          let p2 := updateStatus "waiting" "Waiting for data" p1 in
          let note := PaneNoData (selectedMachine p2)
                        (dict_get "message" (match data with JDict d => d | _ => [] end)) in
          (with_document (set_content note (document p2)) p2, None)
      | _ =>
          (handleError (dict_get "message" (match data with JDict d => d | _ => [] end)) p1,
           None)
      end
  end.

Definition startAutoRefresh (p : page) : page :=
  let p1 := updateAutoInfo (with_countdown 5 p) in
  let '(a, p2) := setInterval CbGetWeight p1 in
  let p3 := {| selectedMachine := selectedMachine p2; autoRefresh := autoRefresh p2;
               autoInterval := Some a; countdown := countdown p2;
               countdownInterval := countdownInterval p2; document := document p2;
               timers := timers p2; next_timer := next_timer p2;
               pending := pending p2 |} in
  let '(c, p4) := setInterval CbCountdown p3 in
  {| selectedMachine := selectedMachine p4; autoRefresh := autoRefresh p4;
     autoInterval := autoInterval p4; countdown := countdown p4;
     countdownInterval := Some c; document := document p4;
     timers := timers p4; next_timer := next_timer p4; pending := pending p4 |}.

Definition stopAutoRefresh (p : page) : page :=
  let p1 := clear_if_set (autoInterval p) p in
  let p2 := clear_if_set (countdownInterval p1) p1 in
  with_document (set_autoInfo "" (document p2)) p2.

Definition toggleAuto (p : page) : page :=
  let p1 := {| selectedMachine := selectedMachine p; autoRefresh := negb (autoRefresh p);
               autoInterval := autoInterval p; countdown := countdown p;
               countdownInterval := countdownInterval p; document := document p;
               timers := timers p; next_timer := next_timer p; pending := pending p |} in
  if autoRefresh p1 then
    startAutoRefresh (with_document (set_autoBtn "Auto: ON" true (document p1)) p1)
  else
    stopAutoRefresh (with_document (set_autoBtn "Auto: OFF" false (document p1)) p1).

(** *** What a request brings back

    [fetch] resolves with the response of the server, whose body is the
    text [jsonify] made of a value, or rejects. [response.json()] parses
    that text: [json.dumps] writes [NaN], [Infinity] and [-Infinity] for
    the floats that are not finite, which are not JSON, so the text of a
    value that holds one does not parse; every number of a text that does
    parse is a double. *)
Inductive fetched : Type :=
  | Response (body : json)
  | Rejected.

Fixpoint dumps_is_json (v : json) : bool :=
  match v with
  | JFloat f => is_finite f
  | JList l => forallb dumps_is_json l
  | JDict d => forallb (fun kv => dumps_is_json kv.2) d
  | _ => true
  end.

Fixpoint parsed (v : json) : json :=
  match v with
  | JInt z => JFloat (binary_normalize prec emax z 0 false)
  | JList l => JList (map parsed l)
  | JDict d => JDict (map (fun kv => (kv.1, parsed kv.2)) d)
  | _ => v
  end.

Definition response_json (body : json) : option json :=
  if dumps_is_json body then Some (parsed body) else None.

(** *** What happens to the page

    The page loads, the user clicks a machine, [Get Weight] or the
    automatic refresh, an interval fires, or a request in flight comes
    back; [message] is the message of the error the browser throws
    should the request be rejected or the body not parse. *)
Inductive event : Type :=
  | Load
  | ClickMachine (machineId : string)
  | ClickGetWeight
  | ClickAuto
  | Fire (id : nat)
  | Settle (k : nat) (r : fetched) (message : string).

(** The rest of [getWeight], after [await fetch(...)]. *)
Definition settle (k : nat) (r : fetched) (message : string) (p : page) : page :=
  match pending p !! k with
  | None => p
  | Some _ =>
      let p1 := {| selectedMachine := selectedMachine p; autoRefresh := autoRefresh p;
                   autoInterval := autoInterval p; countdown := countdown p;
                   countdownInterval := countdownInterval p; document := document p;
                   timers := timers p; next_timer := next_timer p;
                   pending := take k (pending p) ++ drop (S k) (pending p) |} in
      match r with
      | Response body =>
          match response_json body with
          | Some data =>
              let '(p2, thrown) := displayWeight data p1 in
              match thrown with
              | Some e => handleError (Some (JStr (exn_str e))) p2
              | None => p2
              end
          | None => handleError (Some (JStr message)) p1
          end
      | Rejected => handleError (Some (JStr message)) p1
      end
  end.

Definition step (e : event) (p : page) : page :=
  match e with
  | Load => getWeight p
  | ClickMachine machineId => selectMachine machineId p
  | ClickGetWeight => getWeight p
  | ClickAuto => toggleAuto p
  | Fire id =>
      match timers p !! id with
      | Some CbGetWeight => getWeight p
      | Some CbCountdown => countdown_tick p
      | None => p
      end
  | Settle k r message => settle k r message p
  end.

Definition play (es : list event) (p : page) : page :=
  fold_left (fun p e => step e p) es p.

End Client.

(** * Vocabulary of the statements *)

Import Py Clock App.

#[local] Arguments String.append !_ _ / : simpl nomatch.

(** [c] occurs in [p]. *)
Fixpoint char_in (c : ascii) (p : string) : bool :=
  match p with
  | EmptyString => false
  | String a p' => Ascii.eqb a c || char_in c p'
  end.

(** The name [get_machine_file] gives the file of a machine inside
    [DATA_DIR], and the identifier [get_all_machines] reads back from a
    name. *)
Definition entry_name (machine_id : string) : string :=
  "machine_" +:+ machine_id +:+ ".json".

Definition decoded_id (filename : string) : string :=
  replace ".json" "" (replace "machine_" "" filename).

(** An identifier that contains neither [machine_] nor [.json]. *)
Definition plain (machine_id : string) : bool :=
  negb (contains "machine_" machine_id) && negb (contains ".json" machine_id).

(** The weight [update_weight] reads out of a payload. *)
Definition accepted (payload : json) : result pyfloat :=
  v ← subscript payload "weight"; float v.

(** The record [save_weight_data] writes at readings [t1] and [t2]. *)
Definition record (machine_id : string) (weight : pyfloat) (t1 t2 : datetime) : json :=
  JDict [("machine_id", JStr machine_id);
         ("weight", JFloat weight);
         ("timestamp", JStr (isoformat t1));
         ("last_updated", JStr (strftime t2))].

(** The summary [get_all_machines] gives for a record. *)
Definition summary (machine_id : string) (weight last_updated : json) : json :=
  JDict [("machine_id", JStr machine_id);
         ("weight", weight);
         ("last_updated", last_updated)].

(** The bodies the routes answer with. *)
Definition found (machine_id : string) (weight timestamp : json) : response :=
  jsonify [("status", JStr "success");
           ("machine_id", JStr machine_id);
           ("weight", weight);
           ("timestamp", timestamp)].

Definition no_data (machine_id : string) : response :=
  jsonify [("status", JStr "no_data");
           ("message", JStr ("No weight data available for Machine " +:+ machine_id))].

Definition ack (machine_id : string) (weight : pyfloat) (t : datetime) : response :=
  jsonify [("status", JStr "success");
           ("message", JStr ("Weight updated for Machine " +:+ machine_id));
           ("machine_id", JStr machine_id);
           ("weight", JFloat weight);
           ("timestamp", JStr (isoformat t))].

Definition failure (message : string) (c : Z) : response :=
  with_status (jsonify [("status", JStr "error"); ("message", JStr message)]) c.

Definition advance (n : nat) (w : world) : world :=
  {| files := files w; ticks := (n + ticks w)%nat |}.

(** What a submission with an accepted weight answers and leaves behind. *)
Definition after_save (clock : nat -> datetime) (fault : write_fault)
    (machine_id : string) (weight : pyfloat) (w : world) : response * world :=
  match fault with
  | NoFault =>
      (ack machine_id weight (clock (2 + ticks w)%nat),
       {| files := <[get_machine_file machine_id :=
                       FJson (record machine_id weight (clock (ticks w))
                                (clock (1 + ticks w)%nat))]> (files w);
          ticks := (3 + ticks w)%nat |})
  | OpenFails =>
      (failure "Failed to save weight data" 500, advance 2 w)
  | DumpFails =>
      (failure "Failed to save weight data" 500,
       {| files := <[get_machine_file machine_id := FGarbage]> (files w);
          ticks := (2 + ticks w)%nat |})
  end.

(** A [datetime] the class can hold: each field within its range. *)
Definition valid (d : datetime) : Prop :=
  1 ≤ year d ≤ 9999 ∧ 1 ≤ month d ≤ 12 ∧ 1 ≤ day d ≤ 31
  ∧ 0 ≤ hour d ≤ 23 ∧ 0 ≤ minute d ≤ 59 ∧ 0 ≤ second d ≤ 59
  ∧ 0 ≤ microsecond d ≤ 999999.

(** A clock that never runs backwards. *)
Definition monotone (clock : nat -> datetime) : Prop :=
  ∀ i j : nat, (i ≤ j)%nat → dt_le (clock i) (clock j).

(** Every file of the store that decodes to a true value decodes to an
    object with a [weight]: the loop of [get_all_machines] then meets no
    exception. *)
Definition store_ok (w : world) : Prop :=
  ∀ path v, files w !! path = Some (FJson v) → truthy v = true →
    ∃ d x, v = JDict d ∧ dict_get "weight" d = Some x.

(** Every file of the store that decodes holds a record written by
    [save_weight_data] for the machine the file belongs to. *)
Definition all_records (w : world) : Prop :=
  ∀ path v, files w !! path = Some (FJson v) →
    ∃ machine_id weight t1 t2,
      path = get_machine_file machine_id ∧ v = record machine_id weight t1 t2.

(** No record is stored for a machine. *)
Definition no_record (machine_id : string) (w : world) : Prop :=
  ∀ v, files w !! get_machine_file machine_id ≠ Some (FJson v).

(** What an entry contributes to the listing. *)
Definition entry_summary (w : world) (filename : string) : option json :=
  match machine_entry w filename with
  | inr o => o
  | inl _ => None
  end.

(** A clock that advances by one microsecond per reading. *)
Definition tick_clock (n : nat) : datetime :=
  mk_datetime 2024 3 9 7 5 1 (Z.of_nat n).

(** The store without the file of a machine. *)
Definition without (machine_id : string) (w : world) : world :=
  {| files := delete (get_machine_file machine_id) (files w); ticks := ticks w |}.

(** The [last_updated] a summary shows for a stored object. *)
Definition last_updated_of (d : list (string * json)) : json :=
  match dict_get "last_updated" d with
  | Some u => u
  | None => JStr "Unknown"
  end.

(** The floats 10.5 and 12.0, and payloads that carry them. *)
Definition f_10_5 : pyfloat := S754_finite false 5910974510923776 (-49).
Definition f_12 : pyfloat := S754_finite false 6755399441055744 (-49).

Definition weight_payload (v : json) : json := JDict [("weight", v)].

(** The store after machine 1 has reported 10.5 to an empty store. *)
Definition stored_10_5 : world :=
  snd (update_weight tick_clock NoFault "1" (weight_payload (JFloat f_10_5)) initial).

(** That store with one more file, written by hand for machine 7: an
    object that holds no weight. *)
Definition stored_with_stray : world :=
  {| files := <[get_machine_file "7" := FJson (JDict [("kg", JInt 5)])]>
                (files stored_10_5);
     ticks := ticks stored_10_5 |}.

(** The store after [machine_2] has reported 12.0 and the write of a
    report of machine 1 has failed after [open]. *)
Definition stored_half_written : world :=
  snd (run tick_clock
         [Submit "machine_2" (weight_payload (JFloat f_12)) NoFault;
          Submit "1" (weight_payload (JFloat f_10_5)) DumpFails] initial).

(** The entry makes the loop of [get_all_machines] raise. *)
Definition entry_raises (w : world) (filename : string) : bool :=
  match machine_entry w filename with
  | inl _ => true
  | inr _ => false
  end.

(** A path that is not the file of any machine for [get_all_machines]:
    it lies outside [DATA_DIR], or its name fails the test on names. *)
Definition foreign (path : string) : bool :=
  match strip_prefix (DATA_DIR +:+ "/") path with
  | Some name => negb (startswith "machine_" name && endswith ".json" name)
  | None => true
  end.

(** The answer has [status] [success]. *)
Definition is_success (r : response) : bool :=
  match field "status" r with
  | Some (JStr s) => String.eqb s "success"
  | _ => false
  end.

(** The entry of a log is an acknowledged submission for the machine. *)
Definition acked (machine_id : string) (e : request * response) : bool :=
  match fst e with
  | Submit m _ _ => String.eqb m machine_id && is_success (snd e)
  | _ => false
  end.

(** The acknowledgement of the last acknowledged submission for the
    machine, if there is one. *)
Definition last_ack (machine_id : string) (log : list (request * response))
    : option response :=
  fold_left (fun acc e => if acked machine_id e then Some (snd e) else acc) log None.

(** What the last acknowledgement says of the file of the machine. *)
Definition serves (machine_id : string) (acc : option response) (w : world) : Prop :=
  match acc with
  | Some resp =>
      ∃ weight t1 t2,
        field "weight" resp = Some (JFloat weight)
        ∧ files w !! get_machine_file machine_id
          = Some (FJson (record machine_id weight t1 t2))
  | None => no_record machine_id w
  end.

(** The request is a submission for the machine, with a weight [float]
    converts, whose write fails after [open]. *)
Definition garbles (machine_id : string) (r : request) : bool :=
  match r with
  | Submit m payload DumpFails =>
      String.eqb m machine_id
      && match accepted payload with inr _ => true | inl _ => false end
  | _ => false
  end.

(** The request writes the file of a machine. *)
Definition writes (path : string) (r : request) : Prop :=
  ∃ machine_id payload fault weight,
    r = Submit machine_id payload fault
    ∧ path = get_machine_file machine_id
    ∧ accepted payload = inr weight
    ∧ fault ≠ OpenFails.

(** Every record of the store carries two consecutive readings of the
    clock, both made before the next one. *)
Definition timed_records (clock : nat -> datetime) (w : world) : Prop :=
  ∀ path v, files w !! path = Some (FJson v) →
    ∃ machine_id weight (i : nat),
      path = get_machine_file machine_id
      ∧ v = record machine_id weight (clock i) (clock (S i))
      ∧ (S i < ticks w)%nat.

(** The line under the buttons while the automatic refresh is on. *)
Definition auto_text (n : Z) : string :=
  "Next refresh in " +:+ Client.string_of_Z n +:+ " seconds...".

(** What the automatic refresh of the page is made of. *)
Definition auto_view (p : Client.page)
    : bool * option nat * option nat * Z * gmap nat Client.callback * nat
      * string * bool :=
  (Client.autoRefresh p, Client.autoInterval p, Client.countdownInterval p,
   Client.countdown p, Client.timers p, Client.next_timer p,
   Client.autoInfo_textContent (Client.document p),
   Client.autoBtn_active (Client.document p)).

(** The automatic refresh is consistent: off, no interval is set and the
    line is empty; on, exactly the two intervals of [startAutoRefresh] are
    set, the count is between 1 and 5 and the line shows it. *)
Definition auto_ok (p : Client.page) : Prop :=
  (0 < Client.next_timer p)%nat
  ∧ if Client.autoRefresh p then
      ∃ a c : nat,
        Client.autoInterval p = Some a
        ∧ Client.countdownInterval p = Some c
        ∧ (0 < a)%nat ∧ (a < c)%nat ∧ (c < Client.next_timer p)%nat
        ∧ Client.timers p
          = <[c := Client.CbCountdown]> (<[a := Client.CbGetWeight]> ∅)
        ∧ 1 ≤ Client.countdown p ≤ 5
        ∧ Client.autoInfo_textContent (Client.document p)
          = auto_text (Client.countdown p)
        ∧ Client.autoBtn_active (Client.document p) = true
    else
      Client.timers p = ∅
      ∧ Client.autoInfo_textContent (Client.document p) = ""
      ∧ Client.autoBtn_active (Client.document p) = false.

(** The page after the answer [get_weight] gives for the machine, once
    the server has handled the requests [rs], has come back to the request
    in flight number [k]. *)
Definition answered (clock : nat -> datetime) (rs : list request) (machine_id : string)
    (k : nat) (message : string) (p : Client.page) : Client.page :=
  Client.settle k
    (Client.Response (JDict (body (get_weight machine_id (snd (run clock rs initial))))))
    message p.

(** What the error pane shows for an error with that message. *)
Definition error_text (message : string) : json :=
  if String.eqb message "" then JStr "Unknown error" else JStr message.

(** * Properties *)

(** ** Strings *)

Section StringFacts.

Implicit Types (p s t r old new : string) (c : ascii).

Lemma append_empty_r s : s +:+ "" = s.
Proof. induction s as [|a s IH]; simpl; [done | by rewrite IH]. Qed.

Lemma append_assoc s t r : (s +:+ t) +:+ r = s +:+ (t +:+ r).
Proof. induction s as [|a s IH]; simpl; [done | by rewrite IH]. Qed.

Lemma length_append s t :
  String.length (s +:+ t) = (String.length s + String.length t)%nat.
Proof. induction s as [|a s IH]; simpl; [done | by rewrite IH]. Qed.

Lemma append_inj_r s1 s2 t : s1 +:+ t = s2 +:+ t → s1 = s2.
Proof.
  revert s2; induction s1 as [|a s1 IH]; intros [|b s2] H; simpl in *.
  - done.
  - apply (f_equal String.length) in H. simpl in H. rewrite length_append in H. lia.
  - apply (f_equal String.length) in H. simpl in H. rewrite length_append in H. lia.
  - injection H as -> H. f_equal. by apply IH.
Qed.

Lemma strip_prefix_append p s : strip_prefix p (p +:+ s) = Some s.
Proof.
  induction p as [|a p IH]; simpl; [done|].
  by rewrite Ascii.eqb_refl.
Qed.

Lemma strip_prefix_Some p s r : strip_prefix p s = Some r → s = p +:+ r.
Proof.
  revert s; induction p as [|a p IH]; intros s H; simpl in *.
  - by injection H.
  - destruct s as [|b s]; [done|].
    destruct (Ascii.eqb_spec a b) as [->|]; [|done].
    f_equal. by apply IH.
Qed.

Lemma strip_prefix_startswith p s :
  startswith p s = match strip_prefix p s with Some _ => true | None => false end.
Proof.
  revert s; induction p as [|a p IH]; intros s; simpl; [done|].
  destruct s as [|b s]; [done|].
  destruct (Ascii.eqb a b); simpl; [apply IH | done].
Qed.

Lemma strip_prefix_None p s : startswith p s = false → strip_prefix p s = None.
Proof. rewrite strip_prefix_startswith. by destruct (strip_prefix p s). Qed.

Lemma startswith_append p s : startswith p (p +:+ s) = true.
Proof. by rewrite strip_prefix_startswith, strip_prefix_append. Qed.

Lemma endswith_refl p : endswith p p = true.
Proof. destruct p; cbn [endswith]; by rewrite String.eqb_refl. Qed.

Lemma endswith_append p s : endswith p (s +:+ p) = true.
Proof.
  induction s as [|a s IH]; simpl.
  - apply endswith_refl.
  - rewrite IH. apply orb_true_r.
Qed.

(** A character foreign to [p] stops every match of [p] that reaches it. *)
Lemma startswith_app_fresh c p s t :
  char_in c p = false →
  startswith p (s +:+ String c t) = startswith p s.
Proof.
  revert s; induction p as [|a p IH]; intros s Hc; simpl in *; [done|].
  apply orb_false_elim in Hc as [Hac Hp].
  destruct s as [|b s]; simpl.
  - by rewrite Hac.
  - by rewrite IH.
Qed.

Lemma startswith_app_head c p s t :
  char_in c p = false → s ≠ "" →
  startswith (String c p) (s +:+ String c t) = startswith (String c p) s.
Proof.
  intros Hc Hs. destruct s as [|b s]; [done|]. simpl.
  by rewrite startswith_app_fresh.
Qed.

Lemma contains_empty p : p ≠ "" → contains p "" = false.
Proof. by destruct p. Qed.

Lemma contains_app_fresh c p s t :
  char_in c p = false → p ≠ "" →
  contains p (s +:+ String c t) = contains p s || contains p (String c t).
Proof.
  intros Hc Hp. induction s as [|b s IH].
  - by rewrite contains_empty.
  - change (contains p (String b s +:+ String c t))
      with (startswith p (String b s +:+ String c t) || contains p (s +:+ String c t)).
    rewrite startswith_app_fresh, IH by done.
    simpl. by rewrite orb_assoc.
Qed.

(** *** [replace] *)

Lemma replace_from_empty n old new :
  old ≠ "" → replace_from n old new "" = "".
Proof. intros H. destruct n, old; done. Qed.

Lemma replace_from_prefix n old new s :
  replace_from (S n) old new (old +:+ s) = new +:+ replace_from n old new s.
Proof. cbn [replace_from]. by rewrite strip_prefix_append. Qed.

(** Without an occurrence of [old] nothing is replaced. *)
Lemma replace_from_absent n old new s :
  contains old s = false → replace_from n old new s = s.
Proof.
  revert s; induction n as [|n IH]; intros s H; simpl; [done|].
  destruct s as [|b s].
  - simpl in H. apply orb_false_elim in H as [H _].
    by rewrite (strip_prefix_None _ _ H).
  - simpl in H. apply orb_false_elim in H as [H1 H2].
    rewrite (strip_prefix_None _ _ H1). by rewrite IH.
Qed.

(** The counter only has to cover the length of the string. *)
Lemma replace_from_fuel n m old new s :
  old ≠ "" → (String.length s ≤ n)%nat → (String.length s ≤ m)%nat →
  replace_from n old new s = replace_from m old new s.
Proof.
  intros Hold. revert m s; induction n as [|n IH]; intros m s Hn Hm.
  - destruct s; [|simpl in Hn; lia]. by rewrite !replace_from_empty.
  - destruct m as [|m].
    { destruct s; [|simpl in Hm; lia]. by rewrite !replace_from_empty. }
    simpl. destruct (strip_prefix old s) as [rest|] eqn:E.
    + apply strip_prefix_Some in E. subst s. rewrite length_append in Hn, Hm.
      destruct old; [done|]. simpl in Hn, Hm.
      f_equal. apply IH; lia.
    + destruct s as [|b s]; [done|]. simpl in Hn, Hm.
      f_equal. apply IH; lia.
Qed.

(** A pattern whose first character does not recur inside it cannot
    straddle the end of [s] in [s +:+ pattern]: the copy appended at the end
    is removed, and the rest is treated as [s] alone is. *)
Lemma replace_from_app_pattern n c p s :
  char_in c p = false →
  (String.length (s +:+ String c p) ≤ n)%nat →
  replace_from n (String c p) "" (s +:+ String c p) = replace_from n (String c p) "" s.
Proof.
  intros Hc. revert s; induction n as [|n IH]; intros s Hn.
  { rewrite length_append in Hn. simpl in Hn. lia. }
  destruct s as [|b s].
  - rewrite <- (append_empty_r (String c p)) at 2. change ("" +:+ ?x) with x.
    cbn [replace_from]. rewrite strip_prefix_append.
    rewrite !replace_from_empty by done. done.
  - cbn [replace_from].
    pose proof (startswith_app_head c p (String b s) p Hc) as Hsw.
    rewrite !strip_prefix_startswith in Hsw.
    destruct (strip_prefix (String c p) (String b s)) as [rest|] eqn:E.
    + apply strip_prefix_Some in E. rewrite E.
      rewrite append_assoc, strip_prefix_append. simpl.
      apply IH. rewrite E, append_assoc in Hn.
      rewrite length_append in Hn.
      simpl in Hn. lia.
    + destruct (strip_prefix (String c p) (String b s +:+ String c p)) eqn:E'.
      { specialize (Hsw ltac:(done)). done. }
      simpl. f_equal. apply IH.
      simpl in Hn. lia.
Qed.

Lemma replace_from_length_le n old s :
  (String.length (replace_from n old "" s) ≤ String.length s)%nat.
Proof.
  revert s; induction n as [|n IH]; intros s; simpl; [done|].
  destruct (strip_prefix old s) as [rest|] eqn:E.
  - apply strip_prefix_Some in E. subst s. rewrite length_append.
    specialize (IH rest). lia.
  - destruct s as [|b s]; simpl; [done|]. specialize (IH s). lia.
Qed.

(** Every pass that meets an occurrence shortens the string by at least
    the length of the pattern. *)
Lemma replace_from_length_lt n old s :
  contains old s = true → (String.length s ≤ n)%nat →
  (String.length (replace_from n old "" s) + String.length old ≤ String.length s)%nat.
Proof.
  revert s; induction n as [|n IH]; intros s Hc Hn.
  - destruct s; [|simpl in Hn; lia].
    destruct old; [simpl; lia | done].
  - simpl. destruct (strip_prefix old s) as [rest|] eqn:E.
    + apply strip_prefix_Some in E. subst s. rewrite length_append.
      pose proof (replace_from_length_le n old rest). simpl. lia.
    + destruct s as [|b s].
      * simpl in Hc. rewrite strip_prefix_startswith, E in Hc. done.
      * simpl in Hc. rewrite strip_prefix_startswith, E in Hc. simpl in Hc.
        simpl in Hn. specialize (IH s Hc ltac:(lia)). simpl. lia.
Qed.

End StringFacts.

(** ** File names *)

Lemma get_machine_file_entry machine_id :
  get_machine_file machine_id = path_join DATA_DIR (entry_name machine_id).
Proof. reflexivity. Qed.

Lemma entry_name_inj a b : entry_name a = entry_name b → a = b.
Proof.
  unfold entry_name. intros H.
  apply String.app_inj in H. by apply append_inj_r in H.
Qed.

Lemma get_machine_file_inj a b : get_machine_file a = get_machine_file b → a = b.
Proof.
  rewrite !get_machine_file_entry. unfold path_join. intros H.
  do 2 apply String.app_inj in H. by apply entry_name_inj.
Qed.

Lemma entry_name_filter machine_id :
  startswith "machine_" (entry_name machine_id)
  && endswith ".json" (entry_name machine_id) = true.
Proof.
  unfold entry_name. rewrite startswith_append, andb_true_l.
  rewrite <- append_assoc. apply endswith_append.
Qed.

Lemma listdir_elem d (fs : gmap string file) name :
  name ∈ listdir d fs ↔ is_Some (fs !! path_join d name).
Proof.
  unfold listdir, path_join. rewrite list_elem_of_omap. split.
  - intros [[k f] [Hin Hk]]. simpl in Hk.
    apply strip_prefix_Some in Hk. rewrite append_assoc in Hk. subst k.
    apply elem_of_map_to_list in Hin. eauto.
  - intros [f Hf]. exists (d +:+ "/" +:+ name, f). split.
    + by apply elem_of_map_to_list.
    + change (strip_prefix (d +:+ "/") (d +:+ "/" +:+ name) = Some name).
      by rewrite <- append_assoc, strip_prefix_append.
Qed.

(** The first pass removes the prefix and then goes on through the
    identifier and the extension. *)
Lemma replace_prefix_entry machine_id :
  replace "machine_" "" (entry_name machine_id)
  = replace_from (String.length (machine_id +:+ ".json")) "machine_" ""
      (machine_id +:+ ".json").
Proof.
  unfold replace, entry_name.
  rewrite length_append.
  change (String.length "machine_" + ?k)%nat with (S (7 + k)).
  rewrite replace_from_prefix. change ("" +:+ ?x) with x.
  apply replace_from_fuel; [done | lia | lia].
Qed.

Lemma replace_extension machine_id :
  replace ".json" "" (machine_id +:+ ".json") = replace ".json" "" machine_id.
Proof.
  unfold replace.
  rewrite replace_from_app_pattern by done.
  apply replace_from_fuel; [done | | done].
  rewrite length_append. lia.
Qed.

(** The identifier survives when it contains neither pattern. *)
Lemma decoded_id_plain machine_id :
  plain machine_id = true → decoded_id (entry_name machine_id) = machine_id.
Proof.
  unfold plain. intros [H1 H2]%andb_true_iff.
  apply negb_true_iff in H1, H2.
  unfold decoded_id. rewrite replace_prefix_entry.
  rewrite replace_from_absent.
  - rewrite replace_extension. unfold replace. by apply replace_from_absent.
  - rewrite (contains_app_fresh "." "machine_") by done.
    rewrite H1. reflexivity.
Qed.

(** It comes back strictly shorter when it contains one of them. *)
Lemma decoded_id_shorter machine_id :
  plain machine_id = false →
  (String.length (decoded_id (entry_name machine_id)) < String.length machine_id)%nat.
Proof.
  unfold plain. intros H. unfold decoded_id. rewrite replace_prefix_entry.
  destruct (contains "machine_" machine_id) eqn:H1.
  - set (r := replace_from _ _ _ _).
    assert (String.length r + 8 ≤ String.length machine_id + 5)%nat as Hr.
    { pose proof (replace_from_length_lt (String.length (machine_id +:+ ".json"))
                    "machine_" (machine_id +:+ ".json")) as Hl.
      rewrite (contains_app_fresh "." "machine_"), H1 in Hl by done.
      specialize (Hl eq_refl ltac:(done)).
      rewrite length_append in Hl. subst r. simpl in Hl.
      rewrite length_append. simpl. lia. }
    unfold replace.
    pose proof (replace_from_length_le (String.length r) ".json" r). lia.
  - simpl in H. apply negb_false_iff in H.
    rewrite replace_from_absent.
    + rewrite replace_extension. unfold replace.
      pose proof (replace_from_length_lt (String.length machine_id) ".json"
                    machine_id H ltac:(done)) as Hl.
      simpl in Hl. lia.
    + rewrite (contains_app_fresh "." "machine_") by done.
      rewrite H1. reflexivity.
Qed.

(** ** The update route *)

Section Routes.

Variable clock : nat -> datetime.

Lemma accepted_inv payload weight :
  accepted payload = inr weight →
  ∃ d v, payload = JDict d ∧ dict_get "weight" d = Some v ∧ float v = inr weight.
Proof.
  unfold accepted. destruct payload; try done. simpl.
  destruct (dict_get "weight" d) as [v|] eqn:E; [|done].
  intros H. by exists d, v.
Qed.

(** A payload with a convertible weight reaches [save_weight_data]. *)
Lemma update_weight_accepted fault machine_id payload weight w :
  accepted payload = inr weight →
  update_weight clock fault machine_id payload w
  = after_save clock fault machine_id weight w.
Proof.
  intros (d & v & -> & Hd & Hv)%accepted_inv.
  unfold update_weight. 
  assert (truthy (JDict d) = true) as -> by (by destruct d).
  simpl. rewrite Hd. simpl. rewrite Hv. simpl.
  destruct fault; reflexivity.
Qed.

Local Ltac rejected :=
  eexists _, _; split; [reflexivity|];
  split; [first [by left | by right] | intros; subst; first [done | congruence]].

(** Any other payload is answered with an error and leaves the world as
    it was. *)
Lemma update_weight_rejected fault machine_id payload e w :
  accepted payload = inl e →
  ∃ message c,
    update_weight clock fault machine_id payload w = (failure message c, w)
    ∧ (c = 400 ∨ c = 500)
    ∧ (∀ m, e = ValueError m → c = 400).
Proof.
  unfold accepted, update_weight. intros H.
  destruct payload as [|b|z|f|s|l|d]; [simpl in *.. | ].
  - rejected.
  - destruct b; simpl; rejected.
  - destruct (z =? 0); simpl; rejected.
  - destruct f; simpl; rejected.
  - destruct (String.eqb s ""); simpl; [|destruct (contains "weight" s); simpl];
      rejected.
  - destruct l as [|x l]; simpl; [rejected|].
    match goal with |- context [negb ?b] => destruct b end; simpl; rejected.
  - destruct d as [|kv d]; [simpl; rejected|].
    remember (kv :: d) as d' eqn:Hd'.
    assert (truthy (JDict d') = true) as -> by (by subst).
    simpl in *.
    destruct (dict_get "weight" d') as [v|] eqn:E; simpl in *; [|rejected].
    destruct (float v) as [e'|weight] eqn:Ev; [|done]. simpl.
    injection H as ->. destruct e; rejected.
Qed.

(** The only exception [float] raises on a string is [ValueError]. *)
Lemma float_str_error s e : float (JStr s) = inl e → ∃ m, e = ValueError m.
Proof.
  simpl. destruct (float_of_chars (list_ascii_of_string s)); [done|].
  intros [= <-]. eauto.
Qed.

(** A weight on which [float] raises [ValueError] is answered by the
    clause for that exception. *)
Lemma update_weight_value_error fault machine_id d v m w :
  dict_get "weight" d = Some v →
  float v = inl (ValueError m) →
  update_weight clock fault machine_id (JDict d) w
  = (failure "Invalid weight format" 400, w).
Proof.
  intros Hd Hv. unfold update_weight.
  assert (truthy (JDict d) = true) as -> by (by destruct d).
  simpl. rewrite Hd. simpl. rewrite Hv. reflexivity.
Qed.

(** Only a payload with a convertible weight, written without a fault, is
    acknowledged. *)
Lemma update_weight_success fault machine_id payload w resp w' :
  update_weight clock fault machine_id payload w = (resp, w') →
  field "status" resp = Some (JStr "success") →
  ∃ weight,
    accepted payload = inr weight
    ∧ fault = NoFault
    ∧ resp = ack machine_id weight (clock (2 + ticks w)%nat)
    ∧ w' = {| files := <[get_machine_file machine_id :=
                           FJson (record machine_id weight (clock (ticks w))
                                    (clock (1 + ticks w)%nat))]> (files w);
              ticks := (3 + ticks w)%nat |}.
Proof.
  intros Hup Hs.
  destruct (accepted payload) as [e|weight] eqn:Ha.
  - destruct (update_weight_rejected fault machine_id payload e w Ha)
      as (msg & c & Hr & _).
    rewrite Hr in Hup. injection Hup as <- <-. done.
  - rewrite (update_weight_accepted fault machine_id payload weight w Ha) in Hup.
    destruct fault; unfold after_save in Hup; injection Hup as <- <-; try done.
    by exists weight.
Qed.

End Routes.

(** ** Reading the store *)

Section Store.

Implicit Types (w : world) (machine_id filename : string).

Lemma load_weight_data_lookup machine_id w w' :
  files w !! get_machine_file machine_id = files w' !! get_machine_file machine_id →
  load_weight_data machine_id w = load_weight_data machine_id w'.
Proof. unfold load_weight_data. by intros ->. Qed.

Lemma get_weight_lookup machine_id w w' :
  files w !! get_machine_file machine_id = files w' !! get_machine_file machine_id →
  get_weight machine_id w = get_weight machine_id w'.
Proof.
  intros H. unfold get_weight. by rewrite (load_weight_data_lookup _ _ _ H).
Qed.

Lemma get_weight_record machine_id w id weight t1 t2 :
  files w !! get_machine_file machine_id = Some (FJson (record id weight t1 t2)) →
  get_weight machine_id w = found machine_id (JFloat weight) (JStr (isoformat t1)).
Proof. intros H. unfold get_weight, load_weight_data. rewrite H. reflexivity. Qed.

Lemma get_weight_garbage machine_id w :
  files w !! get_machine_file machine_id = Some FGarbage →
  get_weight machine_id w = no_data machine_id.
Proof. intros H. unfold get_weight, load_weight_data. by rewrite H. Qed.

Lemma get_weight_missing machine_id w :
  files w !! get_machine_file machine_id = None →
  get_weight machine_id w = no_data machine_id.
Proof. intros H. unfold get_weight, load_weight_data. by rewrite H. Qed.

(** *** The listing *)

Lemma machine_entry_ok w filename :
  store_ok w → machine_entry w filename = inr (entry_summary w filename).
Proof.
  intros Hok. unfold entry_summary.
  destruct (machine_entry w filename) as [e|o] eqn:E; [|done].
  exfalso. unfold machine_entry in E.
  destruct (startswith "machine_" filename && endswith ".json" filename); [|done].
  unfold load_weight_data in E.
  destruct (files w !! get_machine_file _) as [[v|]|] eqn:Hf; try done.
  destruct (truthy v) eqn:Ht; [|done].
  destruct (Hok _ _ Hf Ht) as (d & x & -> & Hx).
  simpl in E. rewrite Hx in E. simpl in E.
  by destruct (dict_get "last_updated" d).
Qed.

Lemma collect_ok w filenames machines :
  store_ok w →
  collect w filenames machines = inr (machines ++ omap (entry_summary w) filenames).
Proof.
  intros Hok. revert machines.
  induction filenames as [|filename rest IH]; intros machines; simpl.
  - by rewrite app_nil_r.
  - rewrite machine_entry_ok by done. simpl.
    rewrite IH. destruct (entry_summary w filename); [|done].
    by rewrite <- app_assoc.
Qed.

Lemma get_all_machines_ok w :
  store_ok w →
  get_all_machines w = omap (entry_summary w) (listdir DATA_DIR (files w)).
Proof. intros Hok. unfold get_all_machines. by rewrite collect_ok. Qed.

(** Whatever the store holds, a summary comes from an entry of the
    directory whose decoded identifier loads a true value. *)
Lemma machine_entry_Some w filename s :
  machine_entry w filename = inr (Some s) →
  ∃ x u, s = summary (decoded_id filename) x u
         ∧ truthy (load_weight_data (decoded_id filename) w) = true
         ∧ subscript (load_weight_data (decoded_id filename) w) "weight" = inr x
         ∧ method_get (load_weight_data (decoded_id filename) w) "last_updated"
             (JStr "Unknown") = inr u.
Proof.
  unfold machine_entry. fold (decoded_id filename).
  destruct (startswith "machine_" filename && endswith ".json" filename); [|done].
  destruct (truthy (load_weight_data (decoded_id filename) w)) eqn:Ht; [|done].
  destruct (subscript _ "weight") as [|x]; [done|]. simpl.
  destruct (method_get _ "last_updated" _) as [|u]; [done|]. simpl.
  intros [= <-]. by exists x, u.
Qed.

Lemma collect_elem w filenames machines result s :
  collect w filenames machines = inr result → s ∈ result →
  s ∈ machines ∨ ∃ filename, filename ∈ filenames ∧ machine_entry w filename = inr (Some s).
Proof.
  revert machines. induction filenames as [|filename rest IH]; intros machines; simpl.
  - intros [= <-]. by left.
  - destruct (machine_entry w filename) as [|o] eqn:E; [done|]. simpl.
    intros Hc Hs. destruct (IH _ Hc Hs) as [Hin | (f & Hf & Hm)].
    + destruct o as [m|]; [|by left].
      apply elem_of_app in Hin as [Hin | Hin]; [by left|].
      apply list_elem_of_singleton in Hin as ->.
      right. exists filename. split; [left | done].
    + right. exists f. split; [by right | done].
Qed.

Lemma get_all_machines_elem w s :
  s ∈ get_all_machines w →
  ∃ filename x u,
    is_Some (files w !! path_join DATA_DIR filename)
    ∧ s = summary (decoded_id filename) x u
    ∧ truthy (load_weight_data (decoded_id filename) w) = true
    ∧ subscript (load_weight_data (decoded_id filename) w) "weight" = inr x
    ∧ method_get (load_weight_data (decoded_id filename) w) "last_updated"
        (JStr "Unknown") = inr u.
Proof.
  unfold get_all_machines.
  destruct (collect w _ []) as [|result] eqn:E; [by intros ?%elem_of_nil|].
  intros Hs. destruct (collect_elem _ _ _ _ _ E Hs) as [Hin | (f & Hf & Hm)].
  - by apply elem_of_nil in Hin.
  - apply machine_entry_Some in Hm as (x & u & -> & Ht & Hx & Hu).
    exists f, x, u. by rewrite <- listdir_elem.
Qed.

(** The entry of a machine with a plain identifier yields its summary. *)
Lemma entry_summary_plain w machine_id d x :
  plain machine_id = true →
  files w !! get_machine_file machine_id = Some (FJson (JDict d)) →
  dict_get "weight" d = Some x →
  entry_summary w (entry_name machine_id)
  = Some (summary machine_id x (last_updated_of d)).
Proof.
  intros Hp Hf Hx. unfold entry_summary, machine_entry, last_updated_of.
  rewrite entry_name_filter. fold (decoded_id (entry_name machine_id)).
  rewrite decoded_id_plain by done.
  unfold load_weight_data. rewrite Hf.
  assert (truthy (JDict d) = true) as -> by (by destruct d).
  simpl. rewrite Hx. simpl. by destruct (dict_get "last_updated" d).
Qed.

Lemma list_machines_shape w :
  status_code (list_machines w) = 200
  ∧ field "status" (list_machines w) = Some (JStr "success")
  ∧ field "machines" (list_machines w) = Some (JList (get_all_machines w))
  ∧ field "count" (list_machines w)
    = Some (JInt (Z.of_nat (length (get_all_machines w)))).
Proof. done. Qed.

End Store.

(** ** Runs *)

Section Runs.

Variable clock : nat -> datetime.

Implicit Types (w : world) (machine_id : string) (rs : list request).

Lemma all_records_store_ok w : all_records w → store_ok w.
Proof.
  intros H path v Hf _. destruct (H _ _ Hf) as (id & weight & t1 & t2 & _ & ->).
  by eexists _, _.
Qed.

Lemma all_records_initial : all_records initial.
Proof. intros path v H. simpl in H. by rewrite lookup_empty in H. Qed.

(** A request either leaves the files alone or rewrites the file of one
    machine, with a record or with garbage. *)
Lemma handle_files r w resp w' :
  handle clock r w = (resp, w') →
  files w' = files w
  ∨ (∃ machine_id payload weight,
       r = Submit machine_id payload NoFault
       ∧ accepted payload = inr weight
       ∧ resp = ack machine_id weight (clock (2 + ticks w)%nat)
       ∧ files w' = <[get_machine_file machine_id :=
                        FJson (record machine_id weight (clock (ticks w))
                                 (clock (1 + ticks w)%nat))]> (files w))
  ∨ (∃ machine_id payload,
       r = Submit machine_id payload DumpFails
       ∧ resp = failure "Failed to save weight data" 500
       ∧ files w' = <[get_machine_file machine_id := FGarbage]> (files w)).
Proof.
  destruct r as [machine_id payload fault | machine_id | |]; simpl.
  - destruct (accepted payload) as [e|weight] eqn:Ha.
    + destruct (update_weight_rejected clock fault machine_id payload e w Ha)
        as (msg & c & -> & _).
      intros [= <- <-]. by left.
    + rewrite (update_weight_accepted clock fault machine_id payload weight w Ha).
      destruct fault; simpl; intros [= <- <-].
      * right; left. by exists machine_id, payload, weight.
      * by left.
      * right; right. by exists machine_id, payload.
  - intros [= <- <-]. by left.
  - intros [= <- <-]. by left.
  - unfold health_check. simpl. intros [= <- <-]. by left.
Qed.

Lemma handle_all_records r w resp w' :
  handle clock r w = (resp, w') → all_records w → all_records w'.
Proof.
  intros H Hw path v.
  destruct (handle_files _ _ _ _ H)
    as [-> | [(id & payload & weight & _ & _ & _ & ->) | (id & payload & _ & _ & ->)]].
  - apply Hw.
  - destruct (decide (get_machine_file id = path)) as [<-|Hne].
    + rewrite lookup_insert_eq. intros [= <-]. by eexists _, _, _, _.
    + rewrite lookup_insert_ne by done. apply Hw.
  - destruct (decide (get_machine_file id = path)) as [<-|Hne].
    + by rewrite lookup_insert_eq.
    + rewrite lookup_insert_ne by done. apply Hw.
Qed.

Lemma run_all_records rs w log w' :
  run clock rs w = (log, w') → all_records w → all_records w'.
Proof.
  revert w log. induction rs as [|r rs IH]; intros w log; simpl.
  - by intros [= _ <-].
  - destruct (handle clock r w) as [resp w1] eqn:Hh.
    destruct (run clock rs w1) as [log1 w2] eqn:Hr.
    intros [= _ <-] Hw. eapply IH; [done|]. by eapply handle_all_records.
Qed.

(** The file of a machine holds no record as long as no submission for
    that machine has been acknowledged. *)
Lemma handle_no_record machine_id r w resp w' :
  handle clock r w = (resp, w') →
  no_record machine_id w →
  (∀ payload fault, r = Submit machine_id payload fault →
     field "status" resp ≠ Some (JStr "success")) →
  no_record machine_id w'.
Proof.
  intros H Hw Hr v.
  destruct (handle_files _ _ _ _ H)
    as [-> | [(id & payload & weight & -> & _ & -> & ->) | (id & payload & _ & _ & ->)]].
  - apply Hw.
  - destruct (decide (id = machine_id)) as [->|Hne].
    + by destruct (Hr payload NoFault eq_refl).
    + rewrite lookup_insert_ne; [apply Hw|].
      intros ?%get_machine_file_inj. done.
  - destruct (decide (id = machine_id)) as [->|Hne].
    + by rewrite lookup_insert_eq.
    + rewrite lookup_insert_ne; [apply Hw|].
      intros ?%get_machine_file_inj. done.
Qed.

Lemma run_no_record machine_id rs w log w' :
  run clock rs w = (log, w') →
  no_record machine_id w →
  (∀ payload fault resp, (Submit machine_id payload fault, resp) ∈ log →
     field "status" resp ≠ Some (JStr "success")) →
  no_record machine_id w'.
Proof.
  revert w log. induction rs as [|r rs IH]; intros w log; simpl.
  - by intros [= _ <-].
  - destruct (handle clock r w) as [resp w1] eqn:Hh.
    destruct (run clock rs w1) as [log1 w2] eqn:Hr.
    intros [= <- <-] Hw Hlog. eapply IH; [done | |].
    + eapply handle_no_record; [done | done |].
      intros payload fault ->. apply (Hlog payload fault). left.
    + intros payload fault resp' Hin. apply (Hlog payload fault). by right.
Qed.

Lemma get_weight_no_record machine_id w :
  no_record machine_id w → get_weight machine_id w = no_data machine_id.
Proof.
  intros H. destruct (files w !! get_machine_file machine_id) as [[v|]|] eqn:E.
  - by destruct (H v).
  - by apply get_weight_garbage.
  - by apply get_weight_missing.
Qed.

End Runs.

(** ** Floats *)

Example float_10_5 : float (JStr "10.5") = inr f_10_5.
Proof. reflexivity. Qed.

Example float_12 : float (JStr "12.0") = inr f_12 ∧ float (JInt 12) = inr f_12.
Proof. split; reflexivity. Qed.

Example float_abc :
  float (JStr "abc") = inl (ValueError "could not convert string to float: 'abc'").
Proof. reflexivity. Qed.

Example float_not_finite :
  float (JStr "inf") = inr (S754_infinity false)
  ∧ float (JStr "-Infinity") = inr (S754_infinity true)
  ∧ float (JStr "nan") = inr S754_nan
  ∧ float (JStr "1e400") = inr (S754_infinity false).
Proof. split_and!; vm_compute; reflexivity. Qed.

Example float_null :
  float JNull
  = inl (TypeError "float() argument must be a string or a real number, not 'NoneType'").
Proof. reflexivity. Qed.

(** White space, here a tab, a blank and a line feed, is skipped at both
    ends, and underscores between digits are dropped. The separator
    controls, such as U+001C, are white space for [str.isspace] and not
    for [float]. *)
Example float_white_space :
  float (JStr (String (ascii_of_nat 9) " 12" +:+ String (ascii_of_nat 10) ""))
  = inr f_12
  ∧ float (JStr "1_2") = inr f_12
  ∧ float_of_chars [ascii_of_nat 28; "1"%char; "2"%char] = None
  ∧ float (JStr "1 2") = inl (ValueError "could not convert string to float: '1 2'").
Proof. split_and!; vm_compute; reflexivity. Qed.

(** Decimal digits and white space of any script are read: full-width
    digits, Arabic-Indic digits, a no-break space. Letters are not. *)
Example float_unicode :
  float (JStr "１２") = inr f_12
  ∧ float (JStr "١٢") = inr f_12
  ∧ float_of_chars [ascii_of_nat 194; ascii_of_nat 160; "1"%char; "2"%char] = Some f_12
  ∧ float_of_chars (list_ascii_of_string "ｉｎｆ") = None.
Proof. split_and!; vm_compute; reflexivity. Qed.

(** ** The clock *)

Lemma lex_leb_refl l : lex_leb l l = true.
Proof.
  induction l as [|x l IH]; simpl; [done|].
  rewrite Z.eqb_refl, IH. apply orb_true_r.
Qed.

Lemma dt_le_refl d : dt_le d d.
Proof. apply lex_leb_refl. Qed.


(** *** Time stamps

    On the datetimes the class can hold, [isoformat] loses nothing: two
    readings with the same text are the same reading. *)

Lemma zpad_length w z : String.length (zpad w z) = w.
Proof.
  revert z. induction w as [|w IH]; intros z; [done|].
  cbn [zpad]. rewrite length_append, IH. simpl. lia.
Qed.

Lemma append_inj_length a a' b b' :
  String.length a = String.length a' → a +:+ b = a' +:+ b' → a = a' ∧ b = b'.
Proof.
  revert a'. induction a as [|c a IH]; intros [|c' a'] Hl H; try done.
  simpl in *. injection H as -> H. injection Hl as Hl.
  destruct (IH a' Hl H) as [-> ->]. done.
Qed.

Lemma append_inj_l s t t' : s +:+ t = s +:+ t' → t = t'.
Proof. induction s as [|c s IH]; simpl; [done|]. intros [= H]. by apply IH. Qed.

Lemma digit_inj a b :
  0 ≤ a < 10 → 0 ≤ b < 10 →
  ascii_of_nat (48 + Z.to_nat a) = ascii_of_nat (48 + Z.to_nat b) → a = b.
Proof.
  intros Ha Hb H. apply (f_equal nat_of_ascii) in H.
  rewrite !nat_ascii_embedding in H by lia. lia.
Qed.

Lemma zpad_inj w a b :
  0 ≤ a < 10 ^ Z.of_nat w → 0 ≤ b < 10 ^ Z.of_nat w → zpad w a = zpad w b → a = b.
Proof.
  revert a b. induction w as [|w IH]; intros a b Ha Hb H.
  - change (10 ^ Z.of_nat 0) with 1 in *. lia.
  - rewrite Nat2Z.inj_succ, Z.pow_succ_r in Ha, Hb by lia.
    cbn [zpad] in H.
    apply append_inj_length in H as [H1 H2]; [|by rewrite !zpad_length].
    injection H2 as H2.
    apply digit_inj in H2; [|by apply Z.mod_pos_bound..].
    apply IH in H1.
    + rewrite (Z.div_mod a 10), (Z.div_mod b 10) by lia. by rewrite H1, H2.
    + split; [apply Z.div_pos; lia | apply Z.div_lt_upper_bound; lia].
    + split; [apply Z.div_pos; lia | apply Z.div_lt_upper_bound; lia].
Qed.

Local Ltac field_inj H Hx :=
  let H' := fresh "Hrest" in
  pose proof H as H'; clear H;
  apply append_inj_length in H' as [Hx H]; [|by rewrite !zpad_length];
  apply zpad_inj in Hx; [|simpl; lia..].

Lemma isoformat_inj d d' : valid d → valid d' → isoformat d = isoformat d' → d = d'.
Proof.
  destruct d as [y mo da h mi s us], d' as [y' mo' da' h' mi' s' us'].
  unfold valid, isoformat. cbn [year month day hour minute second microsecond].
  intros Hd Hd' H. destruct Hd as (?&?&?&?&?&?&?), Hd' as (?&?&?&?&?&?&?).
  field_inj H Hy. apply (append_inj_l "-") in H.
  field_inj H Hmo. apply (append_inj_l "-") in H.
  field_inj H Hda. apply (append_inj_l "T") in H.
  field_inj H Hh. apply (append_inj_l ":") in H.
  field_inj H Hmi. apply (append_inj_l ":") in H.
  field_inj H Hs.
  subst. f_equal.
  destruct (Z.eqb_spec us 0) as [->|Hu], (Z.eqb_spec us' 0) as [->|Hu']; try done.
  apply (append_inj_l ".") in H. apply zpad_inj in H; [done|simpl; lia..].
Qed.

Lemma tick_clock_valid (n : nat) : Z.of_nat n ≤ 999999 → valid (tick_clock n).
Proof. intros Hn. unfold valid, tick_clock. cbn. lia. Qed.

(** ** The claims *)



(** C2 does not hold as stated: [save_weight_data] opens the file of the
    machine for writing in place, so a write that fails after [open] has
    truncated the file destroys the record that was there. Machine 1 holds
    10.5; a submission of 12.0 whose write fails is answered 500, and the
    next [get_weight] for machine 1 answers [no_data]. *)
Lemma C2_counterexample :
  accepted (weight_payload (JFloat f_12)) = inr f_12
  ∧ get_weight "1" stored_10_5
    = found "1" (JFloat f_10_5) (JStr "2024-03-09T07:05:01")
  ∧ status_code
      (fst (update_weight tick_clock DumpFails "1" (weight_payload (JFloat f_12))
              stored_10_5)) = 500
  ∧ get_weight "1"
      (snd (update_weight tick_clock DumpFails "1" (weight_payload (JFloat f_12))
              stored_10_5)) = no_data "1"
  ∧ get_weight "1"
      (snd (update_weight tick_clock DumpFails "1" (weight_payload (JFloat f_12))
              stored_10_5)) ≠ get_weight "1" stored_10_5.
Proof. split_and!; try (vm_compute; reflexivity). vm_compute. discriminate. Qed.

(** C2, amended. When the write of a submission with an accepted weight
    fails, the answer is the server error 500 and the record of every other
    machine is untouched. The record of the machine itself is untouched
    when [open] is what fails; when the failure comes after [open], the
    file of the machine is left undecodable, whatever it held, and
    [get_weight] answers [no_data] for it. *)
Theorem C2_failed_put clock fault machine_id payload weight w resp w' :
  accepted payload = inr weight →
  fault ≠ NoFault →
  update_weight clock fault machine_id payload w = (resp, w') →
  resp = failure "Failed to save weight data" 500
  ∧ status_code resp = 500
  ∧ (∀ other, other ≠ machine_id →
       files w' !! get_machine_file other = files w !! get_machine_file other
       ∧ get_weight other w' = get_weight other w)
  ∧ (fault = OpenFails → files w' = files w)
  ∧ (fault = DumpFails →
       files w' = <[get_machine_file machine_id := FGarbage]> (files w)
       ∧ get_weight machine_id w' = no_data machine_id).
Proof.
  intros Ha Hfault Hup.
  rewrite (update_weight_accepted clock fault machine_id payload weight w Ha) in Hup.
  destruct fault; [done| |]; unfold after_save in Hup; injection Hup as <- <-.
  - split_and!; try done.
  - split_and!; try done.
    + intros other Hne.
      assert (files (mk_world (<[get_machine_file machine_id:=FGarbage]> (files w))
                       (2 + ticks w))
                !! get_machine_file other = files w !! get_machine_file other) as Hl.
      { simpl. rewrite lookup_insert_ne; [done|].
        intros ?%get_machine_file_inj. done. }
      split; [done|]. by apply get_weight_lookup.
    + intros _. split; [done|]. apply get_weight_garbage.
      simpl. apply lookup_insert_eq.
Qed.

Lemma C2_witness :
  accepted (weight_payload (JFloat f_12)) = inr f_12
  ∧ DumpFails ≠ NoFault
  ∧ (∀ other, other ≠ "1" →
       get_weight other
         (snd (update_weight tick_clock DumpFails "1" (weight_payload (JFloat f_12))
                 stored_10_5))
       = get_weight other stored_10_5).
Proof.
  split; [reflexivity|]. split; [discriminate|].
  intros other Hne.
  eapply (C2_failed_put tick_clock DumpFails "1" (weight_payload (JFloat f_12)) f_12
            stored_10_5).
  - reflexivity.
  - discriminate.
  - apply surjective_pairing.
  - exact Hne.
Defined.

(** C3 does not hold as stated: [float] accepts the strings [inf],
    [infinity] and [nan], so a weight that is no finite number is
    acknowledged and stored. *)
Lemma C3_counterexample :
  accepted (weight_payload (JStr "inf")) = inr (S754_infinity false)
  ∧ is_finite (S754_infinity false) = false
  ∧ fst (update_weight tick_clock NoFault "1" (weight_payload (JStr "inf")) initial)
    = ack "1" (S754_infinity false) (tick_clock 2)
  ∧ files (snd (update_weight tick_clock NoFault "1" (weight_payload (JStr "inf"))
                  initial)) !! get_machine_file "1"
    = Some (FJson (record "1" (S754_infinity false) (tick_clock 0) (tick_clock 1))).
Proof. split_and!; vm_compute; reflexivity. Qed.

(** C3, amended. A submission whose weight is a string that [float]
    does not read as a number is rejected as a client error, with status
    code 400, before any file is touched: the world is left exactly as it
    was. There is no test of finiteness: whatever [float] makes of the
    weight, finite or not, is acknowledged and stored when the write goes
    through, and [float] reads [inf] and [1e400] as the positive infinity,
    [-Infinity] as the negative one and [nan] as NaN. Every file that
    decodes, in every store the server can reach from an empty directory,
    is a record whose weight is a float; that float may be infinite or
    NaN. *)
Theorem C3_rejected_before_write clock :
  (∀ fault machine_id d s e w,
     dict_get "weight" d = Some (JStr s) →
     float (JStr s) = inl e →
     update_weight clock fault machine_id (JDict d) w
     = (failure "Invalid weight format" 400, w))
  ∧ (∀ machine_id payload weight w,
       accepted payload = inr weight →
       fst (update_weight clock NoFault machine_id payload w)
       = ack machine_id weight (clock (2 + ticks w)%nat)
       ∧ files (snd (update_weight clock NoFault machine_id payload w))
           !! get_machine_file machine_id
         = Some (FJson (record machine_id weight (clock (ticks w))
                          (clock (1 + ticks w)%nat))))
  ∧ (float (JStr "inf") = inr (S754_infinity false)
     ∧ float (JStr "1e400") = inr (S754_infinity false)
     ∧ float (JStr "-Infinity") = inr (S754_infinity true)
     ∧ float (JStr "nan") = inr S754_nan)
  ∧ (∀ rs log w, run clock rs initial = (log, w) → all_records w).
Proof.
  split_and!.
  - intros fault machine_id d s e w Hd He.
    destruct (float_str_error s e He) as [m ->].
    by apply (update_weight_value_error clock fault machine_id d (JStr s) m).
  - intros machine_id payload weight w Ha.
    rewrite (update_weight_accepted clock NoFault machine_id payload weight w Ha).
    split; [done|]. apply lookup_insert_eq.
  - vm_compute. reflexivity.
  - vm_compute. reflexivity.
  - vm_compute. reflexivity.
  - vm_compute. reflexivity.
  - intros rs log w Hrun. eapply run_all_records; [done|].
    apply all_records_initial.
Qed.

Lemma C3_witness :
  float (JStr "abc") = inl (ValueError "could not convert string to float: 'abc'")
  ∧ update_weight tick_clock NoFault "1" (weight_payload (JStr "abc")) stored_10_5
    = (failure "Invalid weight format" 400, stored_10_5)
  ∧ fst (update_weight tick_clock NoFault "1" (weight_payload (JStr "nan")) stored_10_5)
    = ack "1" S754_nan (tick_clock 5)
  ∧ all_records stored_10_5.
Proof.
  split; [reflexivity|]. split_and!.
  - apply (proj1 (C3_rejected_before_write tick_clock) NoFault "1"
             [("weight", JStr "abc")] "abc"
             (ValueError "could not convert string to float: 'abc'") stored_10_5);
      reflexivity.
  - apply (proj1 (proj2 (C3_rejected_before_write tick_clock)) "1"
             (weight_payload (JStr "nan")) S754_nan stored_10_5).
    reflexivity.
  - apply (proj2 (proj2 (proj2 (C3_rejected_before_write tick_clock)))
             [Submit "1" (weight_payload (JFloat f_10_5)) NoFault]
             [(Submit "1" (weight_payload (JFloat f_10_5)) NoFault,
               ack "1" f_10_5 (tick_clock 2))]).
    vm_compute. reflexivity.
Defined.

(** C4 does not hold as stated: the time stamp of the acknowledgement is
    a reading of the clock of its own, taken after [save_weight_data] has
    returned, while the record holds the first reading of the request. On a
    clock that advances between readings the two differ. *)
Lemma C4_counterexample :
  field "status"
    (fst (update_weight tick_clock NoFault "1" (weight_payload (JFloat f_10_5)) initial))
  = Some (JStr "success")
  ∧ field "timestamp"
      (fst (update_weight tick_clock NoFault "1" (weight_payload (JFloat f_10_5)) initial))
    = Some (JStr "2024-03-09T07:05:01.000002")
  ∧ (subscript (load_weight_data "1" stored_10_5) "timestamp"
     = inr (JStr "2024-03-09T07:05:01"))
  ∧ JStr "2024-03-09T07:05:01.000002" ≠ JStr "2024-03-09T07:05:01".
Proof. split_and!; try (vm_compute; reflexivity). discriminate. Qed.

(** C4, amended. An acknowledged submission echoes the machine
    identifier and the accepted weight. Its time stamp is the third reading
    of the clock made by the request; the record holds the first reading as
    [timestamp] and the second as [last_updated]. On a clock that never
    runs backwards the acknowledged time stamp is not earlier than the
    stored one. It is the stored one when the two readings are equal, and,
    the readings being datetimes the class can hold, only then. *)
Theorem C4_acknowledgement clock fault machine_id payload w resp w' :
  update_weight clock fault machine_id payload w = (resp, w') →
  field "status" resp = Some (JStr "success") →
  ∃ weight,
    accepted payload = inr weight
    ∧ status_code resp = 200
    ∧ field "machine_id" resp = Some (JStr machine_id)
    ∧ field "weight" resp = Some (JFloat weight)
    ∧ field "timestamp" resp = Some (JStr (isoformat (clock (2 + ticks w)%nat)))
    ∧ files w' !! get_machine_file machine_id
      = Some (FJson (record machine_id weight (clock (ticks w))
                       (clock (1 + ticks w)%nat)))
    ∧ (monotone clock → dt_le (clock (ticks w)) (clock (2 + ticks w)%nat))
    ∧ (clock (2 + ticks w)%nat = clock (ticks w) →
       field "timestamp" resp = Some (JStr (isoformat (clock (ticks w)))))
    ∧ (valid (clock (ticks w)) → valid (clock (2 + ticks w)%nat) →
       field "timestamp" resp = Some (JStr (isoformat (clock (ticks w)))) →
       clock (2 + ticks w)%nat = clock (ticks w)).
Proof.
  intros Hup Hs.
  destruct (accepted payload) as [e|weight] eqn:Ha.
  - destruct (update_weight_rejected clock fault machine_id payload e w Ha)
      as (msg & c & Hr & _).
    rewrite Hr in Hup. injection Hup as <- <-. done.
  - rewrite (update_weight_accepted clock fault machine_id payload weight w Ha) in Hup.
    destruct fault; unfold after_save in Hup; injection Hup as <- <-; try done.
    exists weight. split_and!; try done.
    + apply lookup_insert_eq.
    + intros Hmono. apply Hmono. lia.
    + intros Heq. by rewrite <- Heq.
    + intros Hv1 Hv3 Heq.
      change (Some (JStr (isoformat (clock (2 + ticks w)%nat)))
              = Some (JStr (isoformat (clock (ticks w))))) in Heq.
      apply isoformat_inj; [done | done | congruence].
Qed.

Lemma C4_witness :
  ∃ weight,
    accepted (weight_payload (JFloat f_10_5)) = inr weight
    ∧ status_code (ack "1" f_10_5 (tick_clock 2)) = 200
    ∧ field "machine_id" (ack "1" f_10_5 (tick_clock 2)) = Some (JStr "1")
    ∧ field "weight" (ack "1" f_10_5 (tick_clock 2)) = Some (JFloat weight)
    ∧ field "timestamp" (ack "1" f_10_5 (tick_clock 2))
      = Some (JStr (isoformat (tick_clock (2 + ticks initial)%nat)))
    ∧ files stored_10_5 !! get_machine_file "1"
      = Some (FJson (record "1" weight (tick_clock (ticks initial))
                       (tick_clock (1 + ticks initial)%nat)))
    ∧ (monotone tick_clock →
       dt_le (tick_clock (ticks initial)) (tick_clock (2 + ticks initial)%nat))
    ∧ (tick_clock (2 + ticks initial)%nat = tick_clock (ticks initial) →
       field "timestamp" (ack "1" f_10_5 (tick_clock 2))
       = Some (JStr (isoformat (tick_clock (ticks initial)))))
    ∧ (valid (tick_clock (ticks initial)) →
       valid (tick_clock (2 + ticks initial)%nat) →
       field "timestamp" (ack "1" f_10_5 (tick_clock 2))
       = Some (JStr (isoformat (tick_clock (ticks initial)))) →
       tick_clock (2 + ticks initial)%nat = tick_clock (ticks initial)).
Proof.
  apply (C4_acknowledgement tick_clock NoFault "1" (weight_payload (JFloat f_10_5))
           initial).
  - vm_compute. reflexivity.
  - reflexivity.
Defined.

(** C5. Two submissions in a row for one machine: once the second is
    acknowledged, [get_weight] answers with the second weight, and the
    files are those of the store the two submissions started from with the
    record of the second written over the file of the machine, so that
    nothing the first submission wrote remains, neither its weight nor its
    time stamps. A machine has one file, and a file belongs to one machine.
    With 10.5 then 12.0 the answer carries 12.0. *)
Theorem C5_second_submission_replaces clock fault1 fault2 machine_id
    payload1 payload2 w resp1 w1 resp2 w2 :
  update_weight clock fault1 machine_id payload1 w = (resp1, w1) →
  update_weight clock fault2 machine_id payload2 w1 = (resp2, w2) →
  field "status" resp2 = Some (JStr "success") →
  ∃ weight2,
    accepted payload2 = inr weight2
    ∧ get_weight machine_id w2
      = found machine_id (JFloat weight2) (JStr (isoformat (clock (ticks w1))))
    ∧ files w2
      = <[get_machine_file machine_id :=
            FJson (record machine_id weight2 (clock (ticks w1))
                     (clock (1 + ticks w1)%nat))]> (files w)
    ∧ (∀ other, get_machine_file other = get_machine_file machine_id →
         other = machine_id).
Proof.
  intros Hup1 Hup2 Hs.
  destruct (update_weight_success clock fault2 machine_id payload2 w1 resp2 w2 Hup2 Hs)
    as (weight2 & Ha2 & _ & _ & Hw2).
  assert (files w2
          = <[get_machine_file machine_id :=
                FJson (record machine_id weight2 (clock (ticks w1))
                         (clock (1 + ticks w1)%nat))]> (files w1)) as Hf2
    by (by rewrite Hw2).
  exists weight2. split; [done|].
  assert (files w2 !! get_machine_file machine_id
          = Some (FJson (record machine_id weight2 (clock (ticks w1))
                           (clock (1 + ticks w1)%nat)))) as Hl
    by (rewrite Hf2; apply lookup_insert_eq).
  split; [by apply (get_weight_record _ _ _ _ _ _ Hl)|].
  split; [|by intros other ?%get_machine_file_inj].
  rewrite Hf2.
  destruct (handle_files clock (Submit machine_id payload1 fault1) w resp1 w1 Hup1)
    as [-> | [(id & p & wt & [= <- <- _] & _ & _ & ->) | (id & p & [= <- <- _] & _ & ->)]].
  - done.
  - apply insert_insert_eq.
  - apply insert_insert_eq.
Qed.

(** The run of the claim: 10.5, then 12.0. *)
Example overwrite_10_5_by_12 :
  get_weight "1"
    (snd (run tick_clock
            [Submit "1" (weight_payload (JFloat f_10_5)) NoFault;
             Submit "1" (weight_payload (JFloat f_12)) NoFault] initial))
  = found "1" (JFloat f_12) (JStr "2024-03-09T07:05:01.000003")
  ∧ map_to_list
      (files (snd (run tick_clock
                     [Submit "1" (weight_payload (JFloat f_10_5)) NoFault;
                      Submit "1" (weight_payload (JFloat f_12)) NoFault] initial)))
    = [(get_machine_file "1", FJson (record "1" f_12 (tick_clock 3) (tick_clock 4)))].
Proof. split; vm_compute; reflexivity. Qed.

Lemma C5_witness :
  ∃ weight2,
    accepted (weight_payload (JFloat f_12)) = inr weight2
    ∧ get_weight "1"
        (snd (update_weight tick_clock NoFault "1" (weight_payload (JFloat f_12))
                stored_10_5))
      = found "1" (JFloat weight2) (JStr (isoformat (tick_clock (ticks stored_10_5))))
    ∧ files (snd (update_weight tick_clock NoFault "1" (weight_payload (JFloat f_12))
                    stored_10_5))
      = <[get_machine_file "1" :=
            FJson (record "1" weight2 (tick_clock (ticks stored_10_5))
                     (tick_clock (1 + ticks stored_10_5)%nat))]> (files initial)
    ∧ (∀ other, get_machine_file other = get_machine_file "1" → other = "1").
Proof.
  apply (C5_second_submission_replaces tick_clock NoFault NoFault "1"
           (weight_payload (JFloat f_10_5)) (weight_payload (JFloat f_12)) initial
           (ack "1" f_10_5 (tick_clock 2)) stored_10_5
           (ack "1" f_12 (tick_clock 5))).
  - vm_compute. reflexivity.
  - vm_compute. reflexivity.
  - reflexivity.
Defined.

(** C6. From an empty directory, after any sequence of requests in which
    no submission for a machine was acknowledged, [get_weight] for that
    machine gives the [no_data] answer. That answer is an ordinary one, with
    status code 200; its [status] is neither [success] nor [error], and it
    carries no [weight]. *)
Theorem C6_never_submitted clock rs log w machine_id :
  run clock rs initial = (log, w) →
  (∀ payload fault resp, (Submit machine_id payload fault, resp) ∈ log →
     field "status" resp ≠ Some (JStr "success")) →
  get_weight machine_id w = no_data machine_id
  ∧ status_code (get_weight machine_id w) = 200
  ∧ field "status" (get_weight machine_id w) = Some (JStr "no_data")
  ∧ field "status" (get_weight machine_id w) ≠ Some (JStr "success")
  ∧ field "status" (get_weight machine_id w) ≠ Some (JStr "error")
  ∧ field "weight" (get_weight machine_id w) = None.
Proof.
  intros Hrun Hlog.
  assert (get_weight machine_id w = no_data machine_id) as ->.
  { apply get_weight_no_record.
    eapply (run_no_record clock machine_id rs initial log w); [done | | done].
    intros v. simpl. by rewrite lookup_empty. }
  by split_and!.
Qed.

Lemma C6_witness :
  get_weight "2"
    (snd (run tick_clock
            [Submit "1" (weight_payload (JFloat f_10_5)) NoFault;
             Submit "2" (weight_payload (JStr "abc")) NoFault;
             Submit "2" (weight_payload (JFloat f_12)) DumpFails;
             GetLatest "1"] initial))
  = no_data "2".
Proof.
  eapply (C6_never_submitted tick_clock
            [Submit "1" (weight_payload (JFloat f_10_5)) NoFault;
             Submit "2" (weight_payload (JStr "abc")) NoFault;
             Submit "2" (weight_payload (JFloat f_12)) DumpFails;
             GetLatest "1"]
            [(Submit "1" (weight_payload (JFloat f_10_5)) NoFault,
              ack "1" f_10_5 (tick_clock 2));
             (Submit "2" (weight_payload (JStr "abc")) NoFault,
              failure "Invalid weight format" 400);
             (Submit "2" (weight_payload (JFloat f_12)) DumpFails,
              failure "Failed to save weight data" 500);
             (GetLatest "1",
              found "1" (JFloat f_10_5) (JStr "2024-03-09T07:05:01"))]).
  - vm_compute. reflexivity.
  - intros payload fault resp Hin.
    repeat (apply elem_of_cons in Hin as [Hin|Hin];
            [try discriminate Hin; injection Hin as -> -> ->; done|]).
    by apply elem_of_nil in Hin.
Defined.

(** C7. Submitting [{"weight": "abc"}] is answered with the client error
    400 whatever the machine, the store and the state of the persistence
    layer, and the world is left exactly as it was: every [get_weight]
    answers what it answered before, [no_data] included. *)
Theorem C7_non_numeric_rejected clock fault machine_id w :
  update_weight clock fault machine_id (weight_payload (JStr "abc")) w
  = (failure "Invalid weight format" 400, w)
  ∧ status_code (failure "Invalid weight format" 400) = 400
  ∧ field "status" (failure "Invalid weight format" 400) = Some (JStr "error")
  ∧ ∀ m, get_weight m
           (snd (update_weight clock fault machine_id (weight_payload (JStr "abc")) w))
         = get_weight m w.
Proof.
  assert (update_weight clock fault machine_id (weight_payload (JStr "abc")) w
          = (failure "Invalid weight format" 400, w)) as H by reflexivity.
  split_and!; try done; intros m; by rewrite H.
Qed.

(** ** The listing of a store of records *)

Lemma store_ok_insert_record path machine_id weight t1 t2 n w :
  store_ok w →
  store_ok {| files := <[path := FJson (record machine_id weight t1 t2)]> (files w);
              ticks := n |}.
Proof.
  intros Hok p v. simpl. destruct (decide (path = p)) as [<-|Hne].
  - rewrite lookup_insert_eq. intros [= <-] _. by eexists _, _.
  - rewrite lookup_insert_ne by done. apply Hok.
Qed.

Lemma load_weight_data_truthy machine_id w :
  truthy (load_weight_data machine_id w) = true →
  files w !! get_machine_file machine_id
  = Some (FJson (load_weight_data machine_id w)).
Proof.
  unfold load_weight_data.
  by destruct (files w !! get_machine_file machine_id) as [[v|]|].
Qed.

(** In a store of records, a summary is listed under an identifier only
    when that identifier has a record, and it shows the weight and the
    [last_updated] of that record. *)
Lemma get_all_machines_sound w s :
  all_records w → s ∈ get_all_machines w →
  ∃ machine_id weight t1 t2,
    files w !! get_machine_file machine_id
    = Some (FJson (record machine_id weight t1 t2))
    ∧ s = summary machine_id (JFloat weight) (JStr (strftime t2)).
Proof.
  intros Hrec (filename & x & u & _ & -> & Ht & Hx & Hu)%get_all_machines_elem.
  pose proof (load_weight_data_truthy _ _ Ht) as Hf.
  destruct (Hrec _ _ Hf) as (id & weight & t1 & t2 & Hid & Hv).
  apply get_machine_file_inj in Hid. subst id.
  rewrite Hv in Hx, Hu, Hf.
  injection Hx as <-. injection Hu as <-.
  by exists (decoded_id filename), weight, t1, t2.
Qed.

(** A machine with a plain identifier and a record is listed. *)
Lemma get_all_machines_complete w machine_id d x :
  store_ok w → plain machine_id = true →
  files w !! get_machine_file machine_id = Some (FJson (JDict d)) →
  dict_get "weight" d = Some x →
  summary machine_id x (last_updated_of d) ∈ get_all_machines w.
Proof.
  intros Hok Hp Hf Hx. rewrite get_all_machines_ok by done.
  apply list_elem_of_omap. exists (entry_name machine_id). split.
  - apply listdir_elem. rewrite <- get_machine_file_entry. by rewrite Hf.
  - by apply entry_summary_plain.
Qed.

(** C8: the part that holds. After submissions for machines 1 and 3 to an
    empty directory the listing has the two summaries and [count] 2; an
    empty directory gives an empty listing, not an error; [count] is always
    the number of summaries. *)
Lemma list_machines_1_and_3 :
  list_machines
    (snd (run tick_clock
            [Submit "1" (weight_payload (JFloat f_10_5)) NoFault;
             Submit "3" (weight_payload (JFloat f_12)) NoFault] initial))
  = jsonify [("status", JStr "success");
             ("machines",
              JList [summary "3" (JFloat f_12) (JStr "2024-03-09 07:05:01");
                     summary "1" (JFloat f_10_5) (JStr "2024-03-09 07:05:01")]);
             ("count", JInt 2)].
Proof. vm_compute. reflexivity. Qed.

Lemma list_machines_empty n :
  list_machines {| files := ∅; ticks := n |}
  = jsonify [("status", JStr "success"); ("machines", JList []); ("count", JInt 0)].
Proof. reflexivity. Qed.

(** The same for any clock, any two distinct machines with plain
    identifiers and any two accepted weights: the listing holds the two
    summaries, in the order the directory yields them, and [count] is 2. *)
Lemma list_machines_two clock a b payload_a payload_b weight_a weight_b :
  plain a = true → plain b = true → a ≠ b →
  accepted payload_a = inr weight_a → accepted payload_b = inr weight_b →
  let w := snd (run clock [Submit a payload_a NoFault; Submit b payload_b NoFault]
                  initial) in
  get_all_machines w
    ≡ₚ [summary b (JFloat weight_b) (JStr (strftime (clock 4%nat)));
        summary a (JFloat weight_a) (JStr (strftime (clock 1%nat)))]
  ∧ field "count" (list_machines w) = Some (JInt 2).
Proof.
  intros Ha Hb Hab Hpa Hpb w.
  assert (w = {| files := <[get_machine_file b :=
                              FJson (record b weight_b (clock 3%nat) (clock 4%nat))]>
                            (<[get_machine_file a :=
                                 FJson (record a weight_a (clock 0%nat) (clock 1%nat))]> ∅);
                 ticks := 6 |}) as Hw.
  { subst w. unfold run, handle.
    rewrite (update_weight_accepted clock NoFault a payload_a weight_a initial Hpa).
    unfold after_save at 1.
    rewrite (update_weight_accepted clock NoFault b payload_b weight_b _ Hpb).
    reflexivity. }
  assert (get_all_machines w
            ≡ₚ [summary b (JFloat weight_b) (JStr (strftime (clock 4%nat)));
                summary a (JFloat weight_a) (JStr (strftime (clock 1%nat)))]) as Hperm.
  { assert (store_ok w) as Hok.
    { apply all_records_store_ok. subst w.
      eapply (run_all_records clock); [apply surjective_pairing|].
      apply all_records_initial. }
    rewrite get_all_machines_ok by done. unfold listdir.
    assert (map_to_list (files w)
              ≡ₚ [(get_machine_file b,
                   FJson (record b weight_b (clock 3%nat) (clock 4%nat)));
                  (get_machine_file a,
                   FJson (record a weight_a (clock 0%nat) (clock 1%nat)))]) as ->.
    { rewrite Hw. simpl. rewrite map_to_list_insert.
      - by rewrite insert_empty, map_to_list_singleton.
      - rewrite lookup_insert_ne; [apply lookup_empty|].
        intros ?%get_machine_file_inj. done. }
    cbn [omap list_omap fst].
    rewrite !get_machine_file_entry. unfold path_join.
    rewrite <- !append_assoc, !strip_prefix_append.
    cbn [omap list_omap].
    assert (entry_summary w (entry_name b)
            = Some (summary b (JFloat weight_b) (JStr (strftime (clock 4%nat))))) as ->.
    { apply (entry_summary_plain w b
               [("machine_id", JStr b); ("weight", JFloat weight_b);
                ("timestamp", JStr (isoformat (clock 3%nat)));
                ("last_updated", JStr (strftime (clock 4%nat)))] (JFloat weight_b));
        [done | rewrite Hw; apply lookup_insert_eq | reflexivity]. }
    assert (entry_summary w (entry_name a)
            = Some (summary a (JFloat weight_a) (JStr (strftime (clock 1%nat))))) as ->.
    { apply (entry_summary_plain w a
               [("machine_id", JStr a); ("weight", JFloat weight_a);
                ("timestamp", JStr (isoformat (clock 0%nat)));
                ("last_updated", JStr (strftime (clock 1%nat)))] (JFloat weight_a));
        [done | | reflexivity].
      rewrite Hw. simpl. rewrite lookup_insert_ne; [apply lookup_insert_eq|].
      intros ?%get_machine_file_inj. done. }
    reflexivity. }
  split; [done|].
  unfold list_machines, field, jsonify. simpl.
  by rewrite (Permutation_length Hperm).
Qed.

(** C8 fails on the code for an identifier that contains [machine_]: the
    submission for [machine_2] is acknowledged and [get_weight] serves its
    record, but the listing reads the identifier [2] out of the file name,
    finds no file for it and returns no summary at all, with [count] 0. *)
Theorem C8_listing_misses_machine :
  fst (update_weight tick_clock NoFault "machine_2" (weight_payload (JInt 3)) initial)
  = ack "machine_2" (S754_finite false 6755399441055744 (-51)) (tick_clock 2)
  ∧ get_weight "machine_2"
      (snd (update_weight tick_clock NoFault "machine_2" (weight_payload (JInt 3))
              initial))
    = found "machine_2" (JFloat (S754_finite false 6755399441055744 (-51)))
        (JStr "2024-03-09T07:05:01")
  ∧ decoded_id (entry_name "machine_2") = "2"
  ∧ list_machines
      (snd (update_weight tick_clock NoFault "machine_2" (weight_payload (JInt 3))
              initial))
    = jsonify [("status", JStr "success"); ("machines", JList []); ("count", JInt 0)].
Proof. split_and!; vm_compute; reflexivity. Qed.

(** ** A corrupt file *)

Lemma summary_inj a b x y u v : summary a x u = summary b y v → a = b.
Proof. by intros [= ->]. Qed.

Lemma store_ok_without machine_id w : store_ok w → store_ok (without machine_id w).
Proof.
  intros Hok path v Hf. apply (Hok path v).
  simpl in Hf. by apply lookup_delete_Some in Hf as [_ Hf].
Qed.

Lemma load_weight_data_without machine_id other w :
  files w !! get_machine_file machine_id = Some FGarbage →
  load_weight_data other (without machine_id w) = load_weight_data other w.
Proof.
  intros Hg. unfold load_weight_data. simpl.
  destruct (decide (get_machine_file machine_id = get_machine_file other)) as [Heq|Hne].
  - rewrite <- Heq, lookup_delete_eq, Hg. done.
  - by rewrite lookup_delete_ne.
Qed.

Lemma machine_entry_without machine_id filename w :
  files w !! get_machine_file machine_id = Some FGarbage →
  machine_entry (without machine_id w) filename = machine_entry w filename.
Proof.
  intros Hg. unfold machine_entry. by rewrite load_weight_data_without.
Qed.

(** C9 does not hold as stated. [load_weight_data] turns a file that
    [json.load] rejects into [None], and that is the only failure handled
    file by file. A file that parses and holds no record, here an object
    without a weight for machine 7, makes the loop of [get_all_machines]
    raise; the clause around the loop then returns the empty list, so that
    machine 1, whose record is well formed, is not listed, and [get_weight]
    for machine 7 fails with status code 500 where [no_data] was expected.
    And next to a file that does not parse, the one of machine 1, the
    record of [machine_2] is well formed and served by [get_weight], yet
    not listed, its identifier being lost on the way back from the file
    name. *)
Lemma C9_counterexample :
  files stored_with_stray !! get_machine_file "7" = Some (FJson (JDict [("kg", JInt 5)]))
  ∧ get_weight "1" stored_with_stray
    = found "1" (JFloat f_10_5) (JStr "2024-03-09T07:05:01")
  ∧ get_all_machines stored_with_stray = []
  ∧ list_machines stored_with_stray
    = jsonify [("status", JStr "success"); ("machines", JList []); ("count", JInt 0)]
  ∧ status_code (get_weight "7" stored_with_stray) = 500
  ∧ get_weight "7" stored_with_stray ≠ no_data "7"
  ∧ files stored_half_written !! get_machine_file "1" = Some FGarbage
  ∧ get_weight "machine_2" stored_half_written
    = found "machine_2" (JFloat f_12) (JStr "2024-03-09T07:05:01")
  ∧ get_all_machines stored_half_written = [].
Proof. split_and!; try (vm_compute; reflexivity). vm_compute. discriminate. Qed.

(** C9, amended. In every store where the file of a machine does not
    parse, that is where [json.load] raises on it, [get_weight] for that
    machine gives the ordinary [no_data] answer, the listing still answers
    [success] with status code 200, and no summary is listed under that
    machine. When moreover every other file that parses to a true value
    holds an object with a weight, the corrupt file takes nothing away
    from the listing: every summary listed by the store without that file
    is listed by the store with it, and every machine whose identifier
    contains neither [machine_] nor [.json] and whose file holds such an
    object is listed with its weight. *)
Theorem C9_corrupt_record_isolated w machine_id :
  files w !! get_machine_file machine_id = Some FGarbage →
  get_weight machine_id w = no_data machine_id
  ∧ status_code (get_weight machine_id w) = 200
  ∧ status_code (list_machines w) = 200
  ∧ field "status" (list_machines w) = Some (JStr "success")
  ∧ field "machines" (list_machines w) = Some (JList (get_all_machines w))
  ∧ (∀ x u, summary machine_id x u ∉ get_all_machines w)
  ∧ (store_ok w →
       (∀ s, s ∈ get_all_machines (without machine_id w) → s ∈ get_all_machines w)
       ∧ (∀ other d x,
            plain other = true →
            files w !! get_machine_file other = Some (FJson (JDict d)) →
            dict_get "weight" d = Some x →
            summary other x (last_updated_of d) ∈ get_all_machines w)).
Proof.
  intros Hg. rewrite (get_weight_garbage _ _ Hg). split_and!; try done.
  - intros x u (filename & x' & u' & _ & Heq & Ht & _)%get_all_machines_elem.
    apply summary_inj in Heq. rewrite <- Heq in Ht.
    unfold load_weight_data in Ht. by rewrite Hg in Ht.
  - intros Hok. split.
    + intros s. rewrite !get_all_machines_ok by auto using store_ok_without.
      rewrite !list_elem_of_omap. intros (filename & Hin & Hs).
      exists filename. split.
      * apply listdir_elem in Hin as [f Hf]. apply listdir_elem.
        simpl in Hf. apply lookup_delete_Some in Hf as [_ Hf]. eauto.
      * unfold entry_summary in *. by rewrite machine_entry_without in Hs.
    + intros other d x Hp Hf Hx. by apply get_all_machines_complete.
Qed.

(** A store where the write for machine 1 failed half way, next to the
    record of machine 3. *)
Lemma C9_witness :
  get_weight "1"
    (snd (run tick_clock
            [Submit "3" (weight_payload (JFloat f_12)) NoFault;
             Submit "1" (weight_payload (JFloat f_10_5)) DumpFails] initial))
  = no_data "1"
  ∧ summary "3" (JFloat f_12) (JStr "2024-03-09 07:05:01")
    ∈ get_all_machines
        (snd (run tick_clock
                [Submit "3" (weight_payload (JFloat f_12)) NoFault;
                 Submit "1" (weight_payload (JFloat f_10_5)) DumpFails] initial)).
Proof.
  destruct (C9_corrupt_record_isolated
              (snd (run tick_clock
                      [Submit "3" (weight_payload (JFloat f_12)) NoFault;
                       Submit "1" (weight_payload (JFloat f_10_5)) DumpFails] initial))
              "1") as (Hget & _ & _ & _ & _ & _ & Hlist).
  { vm_compute. reflexivity. }
  split; [exact Hget|].
  destruct Hlist as [_ Hl].
  { apply all_records_store_ok.
    eapply (run_all_records tick_clock); [apply surjective_pairing|].
    apply all_records_initial. }
  apply (Hl "3" [("machine_id", JStr "3"); ("weight", JFloat f_12);
                 ("timestamp", JStr (isoformat (tick_clock 0)));
                 ("last_updated", JStr (strftime (tick_clock 1)))] (JFloat f_12)).
  - reflexivity.
  - vm_compute. reflexivity.
  - reflexivity.
Defined.

(** C10. When a submission is acknowledged in a store fit for listing,
    an identifier that contains neither [machine_] nor [.json] is read back
    unchanged from the name of its file, and the listing shows a summary
    under exactly that identifier, with the accepted weight. An identifier
    that contains one of the two is read back strictly shorter, hence
    different: the summary its file gives rise to, if any, is not under the
    submitted identifier. *)
Theorem C10_identifier_round_trip clock fault machine_id payload w resp w' :
  store_ok w →
  update_weight clock fault machine_id payload w = (resp, w') →
  field "status" resp = Some (JStr "success") →
  (plain machine_id = true →
     decoded_id (entry_name machine_id) = machine_id
     ∧ ∃ weight,
         accepted payload = inr weight
         ∧ summary machine_id (JFloat weight)
             (JStr (strftime (clock (1 + ticks w)%nat))) ∈ get_all_machines w')
  ∧ (plain machine_id = false →
     decoded_id (entry_name machine_id) ≠ machine_id
     ∧ (String.length (decoded_id (entry_name machine_id))
        < String.length machine_id)%nat
     ∧ ∀ s, machine_entry w' (entry_name machine_id) = inr (Some s) →
            ∀ x u, s ≠ summary machine_id x u).
Proof.
  intros Hok Hup Hs.
  destruct (update_weight_success clock fault machine_id payload w resp w' Hup Hs)
    as (weight & Ha & _ & _ & ->).
  split.
  - intros Hp. split; [by apply decoded_id_plain|].
    exists weight. split; [done|].
    apply (get_all_machines_complete _ machine_id
             [("machine_id", JStr machine_id); ("weight", JFloat weight);
              ("timestamp", JStr (isoformat (clock (ticks w))));
              ("last_updated", JStr (strftime (clock (1 + ticks w)%nat)))]
             (JFloat weight)).
    + by apply store_ok_insert_record.
    + done.
    + apply lookup_insert_eq.
    + reflexivity.
  - intros Hp. pose proof (decoded_id_shorter machine_id Hp) as Hlt.
    assert (decoded_id (entry_name machine_id) ≠ machine_id) as Hne
      by (intros Heq; rewrite Heq in Hlt; lia).
    split_and!; try done.
    intros s (x' & u' & -> & _)%machine_entry_Some x u Heq.
    by apply summary_inj in Heq.
Qed.

Lemma C10_witness :
  store_ok stored_10_5
  ∧ (plain "3" = true →
     decoded_id (entry_name "3") = "3"
     ∧ ∃ weight,
         accepted (weight_payload (JFloat f_12)) = inr weight
         ∧ summary "3" (JFloat weight)
             (JStr (strftime (tick_clock (1 + ticks stored_10_5)%nat)))
           ∈ get_all_machines
               (snd (update_weight tick_clock NoFault "3"
                       (weight_payload (JFloat f_12)) stored_10_5)))
  ∧ plain "3" = true
  ∧ plain "machine_2" = false
  ∧ decoded_id (entry_name "machine_2") ≠ "machine_2".
Proof.
  assert (store_ok stored_10_5) as Hok.
  { apply all_records_store_ok.
    apply (run_all_records tick_clock
             [Submit "1" (weight_payload (JFloat f_10_5)) NoFault] initial
             [(Submit "1" (weight_payload (JFloat f_10_5)) NoFault,
               ack "1" f_10_5 (tick_clock 2))]).
    - vm_compute. reflexivity.
    - apply all_records_initial. }
  split; [exact Hok|]. split; [|split; [reflexivity | split; [reflexivity|]]].
  - apply (C10_identifier_round_trip tick_clock NoFault "3"
             (weight_payload (JFloat f_12)) stored_10_5
             (ack "3" f_12 (tick_clock 5))).
    + exact Hok.
    + vm_compute. reflexivity.
    + reflexivity.
  - refine (proj1 (proj2 (C10_identifier_round_trip tick_clock NoFault "machine_2"
                            (weight_payload (JFloat f_12)) stored_10_5
                            (ack "machine_2" f_12 (tick_clock 5)) _ Hok _ _) _)).
    + vm_compute. reflexivity.
    + reflexivity.
    + reflexivity.
Defined.

(** * Further properties of the code *)

(** ** The files of the machines *)

(** X1. Two machines never share a file: [get_machine_file] sends
    distinct identifiers to distinct paths. Each of these paths is an entry
    of [DATA_DIR] whose name passes the test [get_all_machines] applies to
    the names it lists. *)
Theorem X1_one_file_per_machine a b :
  a ≠ b →
  get_machine_file a ≠ get_machine_file b
  ∧ strip_prefix (DATA_DIR +:+ "/") (get_machine_file a) = Some (entry_name a)
  ∧ startswith "machine_" (entry_name a) && endswith ".json" (entry_name a) = true.
Proof.
  intros Hab. split_and!.
  - intros H. by apply get_machine_file_inj in H.
  - rewrite get_machine_file_entry. unfold path_join.
    by rewrite <- append_assoc, strip_prefix_append.
  - apply entry_name_filter.
Qed.

Lemma X1_witness :
  "1" ≠ "machine_1"
  ∧ get_machine_file "1" ≠ get_machine_file "machine_1"
  ∧ get_machine_file "machine_1" = "machine_data/machine_machine_1.json".
Proof.
  split; [discriminate|]. split; [|reflexivity].
  apply (X1_one_file_per_machine "1" "machine_1"). discriminate.
Defined.

(** ** Saving and loading *)

Lemma save_weight_data_other clock fault machine_id weight w path :
  path ≠ get_machine_file machine_id →
  files (snd (save_weight_data clock fault machine_id weight w)) !! path
  = files w !! path.
Proof.
  intros Hne. unfold save_weight_data.
  destruct fault; simpl; [|done|]; by rewrite lookup_insert_ne.
Qed.

(** X3. What a successful [save_weight_data] writes, [load_weight_data]
    reads back: a dictionary with the identifier, the weight unchanged, the
    first reading of the clock as [timestamp] and the second as
    [last_updated]. After a write that failed past [open] it reads [None].
    What it reads for any other machine is what it read before. *)
Theorem X3_save_then_load clock fault machine_id weight w :
  (fault = NoFault →
     load_weight_data machine_id (snd (save_weight_data clock fault machine_id weight w))
     = record machine_id weight (clock (ticks w)) (clock (S (ticks w))))
  ∧ (fault = DumpFails →
     load_weight_data machine_id (snd (save_weight_data clock fault machine_id weight w))
     = JNull)
  ∧ (fault = OpenFails →
     load_weight_data machine_id (snd (save_weight_data clock fault machine_id weight w))
     = load_weight_data machine_id w)
  ∧ (∀ other, other ≠ machine_id →
     load_weight_data other (snd (save_weight_data clock fault machine_id weight w))
     = load_weight_data other w).
Proof.
  split_and!.
  - intros ->. unfold load_weight_data, save_weight_data. simpl.
    by rewrite lookup_insert_eq.
  - intros ->. unfold load_weight_data, save_weight_data. simpl.
    by rewrite lookup_insert_eq.
  - intros ->. reflexivity.
  - intros other Hne. apply load_weight_data_lookup.
    apply save_weight_data_other. by intros ?%get_machine_file_inj.
Qed.

(** ** Serving one machine *)

(** A store written by hand: the file of machine 7 holds a weight and no
    time stamp. *)
Example get_weight_without_timestamp :
  get_weight "7"
    {| files := {[ get_machine_file "7" := FJson (JDict [("weight", JInt 5)]) ]};
       ticks := 0 |}
  = internal_error.
Proof. vm_compute. reflexivity. Qed.

(** ** Submitting *)

(** Every outcome of [update_weight], by what [float] makes of the
    payload. *)
Lemma update_weight_outcome clock fault machine_id payload w :
  (∃ weight,
     accepted payload = inr weight
     ∧ update_weight clock fault machine_id payload w
       = after_save clock fault machine_id weight w)
  ∨ (∃ e message c,
       accepted payload = inl e
       ∧ update_weight clock fault machine_id payload w = (failure message c, w)
       ∧ (c = 400 ∨ c = 500)).
Proof.
  destruct (accepted payload) as [e|weight] eqn:Ha.
  - right. destruct (update_weight_rejected clock fault machine_id payload e w Ha)
      as (message & c & Hr & Hc & _).
    by exists e, message, c.
  - left. exists weight. split; [done|]. by apply update_weight_accepted.
Qed.

(** X5. A submission for one machine never changes what [get_weight]
    answers for another, whatever the payload and whatever happens to the
    write. *)
Theorem X5_submission_leaves_other_machines clock fault machine_id payload w other :
  other ≠ machine_id →
  get_weight other (snd (update_weight clock fault machine_id payload w))
  = get_weight other w.
Proof.
  intros Hne. apply get_weight_lookup.
  assert (get_machine_file machine_id ≠ get_machine_file other) as Hf
    by (by intros ?%get_machine_file_inj).
  destruct (update_weight_outcome clock fault machine_id payload w)
    as [(weight & _ & ->) | (e & message & c & _ & -> & _)]; [|done].
  destruct fault; simpl; [|done|]; by rewrite lookup_insert_ne.
Qed.

Lemma X5_witness :
  "3" ≠ "1"
  ∧ get_weight "3"
      (snd (update_weight tick_clock DumpFails "1" (weight_payload (JFloat f_12))
              (snd (update_weight tick_clock NoFault "3" (weight_payload (JFloat f_12))
                      stored_10_5))))
    = get_weight "3"
        (snd (update_weight tick_clock NoFault "3" (weight_payload (JFloat f_12))
                stored_10_5)).
Proof.
  split; [discriminate|].
  apply (X5_submission_leaves_other_machines tick_clock DumpFails "1"). discriminate.
Defined.

(** X6. [update_weight] answers with status code 200, 400 or 500. It
    answers 200 exactly when its [status] is [success], which is exactly
    when [float] converts the weight of the payload and the write goes
    through. It never touches a file other than the file of the machine; it
    changes that file only when the weight was converted and [open] did not
    raise; and a 400 answer leaves the whole world, clock included, as it
    was. *)
Theorem X6_update_weight_outcomes clock fault machine_id payload w :
  (status_code (fst (update_weight clock fault machine_id payload w)) = 200
   ∨ status_code (fst (update_weight clock fault machine_id payload w)) = 400
   ∨ status_code (fst (update_weight clock fault machine_id payload w)) = 500)
  ∧ (status_code (fst (update_weight clock fault machine_id payload w)) = 200
     ↔ field "status" (fst (update_weight clock fault machine_id payload w))
       = Some (JStr "success"))
  ∧ (status_code (fst (update_weight clock fault machine_id payload w)) = 200
     ↔ (∃ weight, accepted payload = inr weight) ∧ fault = NoFault)
  ∧ (∀ path, path ≠ get_machine_file machine_id →
       files (snd (update_weight clock fault machine_id payload w)) !! path
       = files w !! path)
  ∧ (files (snd (update_weight clock fault machine_id payload w)) ≠ files w →
     (∃ weight, accepted payload = inr weight) ∧ fault ≠ OpenFails)
  ∧ (status_code (fst (update_weight clock fault machine_id payload w)) = 400 →
     snd (update_weight clock fault machine_id payload w) = w).
Proof.
  destruct (update_weight_outcome clock fault machine_id payload w)
    as [(weight & Ha & ->) | (e & message & c & Ha & -> & Hc)].
  - destruct fault; simpl; split_and!; try done; eauto.
    + split; [eauto | done].
    + intros path Hne. by rewrite lookup_insert_ne.
    + split; [done | intros [_ [=]]].
    + split; [done | intros [_ [=]]].
    + intros path Hne. by rewrite lookup_insert_ne.
  - simpl. rewrite Ha. split_and!; try done.
    + destruct Hc as [-> | ->]; eauto.
    + destruct Hc as [-> | ->]; done.
    + destruct Hc as [-> | ->]; (split; [done | by intros [[? [=]] _]]).
Qed.

Lemma update_weight_reads_weight_only clock fault machine_id d v w :
  dict_get "weight" d = Some v →
  update_weight clock fault machine_id (JDict d) w
  = update_weight clock fault machine_id (weight_payload v) w.
Proof.
  intros Hd. unfold update_weight, weight_payload.
  assert (truthy (JDict d) = true) as -> by (by destruct d).
  assert (truthy (JDict [("weight", v)]) = true) as -> by reflexivity.
  assert (dict_get "weight" [("weight", v)] = Some v) as Hv by reflexivity.
  cbn [negb py_in subscript]. rewrite Hd, Hv. reflexivity.
Qed.

(** X8. Of an object body only the [weight] is read: two bodies with the
    same weight are answered alike and leave the same world, whatever other
    fields they carry. *)
Theorem X8_other_fields_ignored clock fault machine_id d1 d2 v w :
  dict_get "weight" d1 = Some v →
  dict_get "weight" d2 = Some v →
  update_weight clock fault machine_id (JDict d1) w
  = update_weight clock fault machine_id (JDict d2) w.
Proof.
  intros H1 H2.
  rewrite (update_weight_reads_weight_only _ _ _ _ _ _ H1).
  by rewrite (update_weight_reads_weight_only _ _ _ _ _ _ H2).
Qed.

Lemma X8_witness :
  update_weight tick_clock NoFault "1"
    (JDict [("unit", JStr "kg"); ("weight", JStr "12.0"); ("timestamp", JInt 0)])
    initial
  = update_weight tick_clock NoFault "1" (JDict [("weight", JStr "12.0")]) initial.
Proof.
  apply (X8_other_fields_ignored tick_clock NoFault "1" _ _ (JStr "12.0")); reflexivity.
Defined.

(** ** The listing of any store *)

Section Listing.

Implicit Types (w : world) (filename : string) (fs : gmap string file).

Lemma collect_cases w filenames machines :
  if existsb (entry_raises w) filenames
  then ∃ e, collect w filenames machines = inl e
  else collect w filenames machines = inr (machines ++ omap (entry_summary w) filenames).
Proof.
  revert machines. induction filenames as [|filename rest IH]; intros machines.
  - simpl. by rewrite app_nil_r.
  - cbn [existsb collect omap list_omap]. unfold entry_raises at 1, entry_summary at 1.
    destruct (machine_entry w filename) as [e|o]; simpl.
    + by exists e.
    + specialize (IH (match o with Some m => machines ++ [m] | None => machines end)).
      destruct (existsb (entry_raises w) rest); [done|].
      rewrite IH. destruct o; [|done]. by rewrite <- app_assoc.
Qed.

(** The list is empty as soon as one entry raises, and otherwise holds
    what each entry contributes. *)
Lemma get_all_machines_cases w :
  get_all_machines w
  = if existsb (entry_raises w) (listdir DATA_DIR (files w))
    then []
    else omap (entry_summary w) (listdir DATA_DIR (files w)).
Proof.
  unfold get_all_machines.
  pose proof (collect_cases w (listdir DATA_DIR (files w)) []) as H.
  destruct (existsb (entry_raises w) (listdir DATA_DIR (files w))).
  - by destruct H as [e ->].
  - by rewrite H.
Qed.

Lemma existsb_Permutation {A} (f : A → bool) (l1 l2 : list A) :
  l1 ≡ₚ l2 → existsb f l1 = existsb f l2.
Proof.
  intros H. apply eq_true_iff_eq. rewrite !existsb_exists.
  split; intros (x & Hin & Hx); exists x; split; try done.
  - by apply (Permutation_in _ H).
  - by apply (Permutation_in _ (Permutation_sym H)).
Qed.

(** The order in which the directory yields its entries only shows in
    the order of the list. *)
Lemma listing_Permutation w (l1 l2 : list string) :
  l1 ≡ₚ l2 →
  (if existsb (entry_raises w) l1 then [] else omap (entry_summary w) l1)
  ≡ₚ (if existsb (entry_raises w) l2 then [] else omap (entry_summary w) l2).
Proof.
  intros H. rewrite (existsb_Permutation _ _ _ H).
  destruct (existsb (entry_raises w) l2); [done|]. by rewrite H.
Qed.

Lemma machine_entry_files w w' filename :
  (∀ machine_id,
     files w' !! get_machine_file machine_id = files w !! get_machine_file machine_id) →
  machine_entry w' filename = machine_entry w filename.
Proof.
  intros H. unfold machine_entry.
  by rewrite (load_weight_data_lookup _ w' w (H _)).
Qed.

Lemma machine_entry_unlisted w filename :
  startswith "machine_" filename && endswith ".json" filename = false →
  machine_entry w filename = inr None.
Proof. intros H. unfold machine_entry. by rewrite H. Qed.

Lemma foreign_not_machine_file path machine_id :
  foreign path = true → path ≠ get_machine_file machine_id.
Proof.
  intros Hf ->. unfold foreign in Hf.
  rewrite get_machine_file_entry in Hf. unfold path_join in Hf.
  rewrite <- append_assoc, strip_prefix_append, entry_name_filter in Hf. done.
Qed.

(** The entries of a directory, with and without one path. *)
Lemma listdir_delete fs path f :
  fs !! path = Some f →
  listdir DATA_DIR fs
  ≡ₚ match strip_prefix (DATA_DIR +:+ "/") path with
      | Some name => [name]
      | None => []
      end ++ listdir DATA_DIR (delete path fs).
Proof.
  intros Hf. unfold listdir.
  rewrite <- (map_to_list_delete fs path f Hf).
  cbn [omap list_omap fst].
  by destruct (strip_prefix (DATA_DIR +:+ "/") path).
Qed.

Lemma listing_foreign_entry w path l :
  foreign path = true →
  (if existsb (entry_raises w)
        (match strip_prefix (DATA_DIR +:+ "/") path with
         | Some name => [name]
         | None => []
         end ++ l)
   then []
   else omap (entry_summary w)
          (match strip_prefix (DATA_DIR +:+ "/") path with
           | Some name => [name]
           | None => []
           end ++ l))
  = if existsb (entry_raises w) l then [] else omap (entry_summary w) l.
Proof.
  unfold foreign. destruct (strip_prefix (DATA_DIR +:+ "/") path) as [name|]; [|done].
  intros Hn%negb_true_iff. cbn [app existsb omap list_omap].
  unfold entry_raises at 1, entry_summary at 1.
  by rewrite (machine_entry_unlisted w name Hn).
Qed.

Lemma listing_entries_ext w w' l :
  (∀ machine_id,
     files w' !! get_machine_file machine_id = files w !! get_machine_file machine_id) →
  (if existsb (entry_raises w') l then [] else omap (entry_summary w') l)
  = if existsb (entry_raises w) l then [] else omap (entry_summary w) l.
Proof.
  intros H.
  assert (∀ filename, entry_raises w' filename = entry_raises w filename) as Hr
    by (intros; unfold entry_raises; by rewrite (machine_entry_files w w' _ H)).
  assert (∀ filename, entry_summary w' filename = entry_summary w filename) as Hs
    by (intros; unfold entry_summary; by rewrite (machine_entry_files w w' _ H)).
  assert (existsb (entry_raises w') l = existsb (entry_raises w) l) as ->.
  { induction l as [|a l IH]; [done|]. cbn [existsb]. by rewrite Hr, IH. }
  assert (omap (entry_summary w') l = omap (entry_summary w) l) as ->; [|done].
  induction l as [|a l IH]; [done|]. cbn [omap list_omap]. by rewrite Hs, IH.
Qed.

(** The list of a store and the list of the store without a foreign
    path. *)
Lemma get_all_machines_delete_foreign w path :
  foreign path = true →
  get_all_machines w
  ≡ₚ get_all_machines {| files := delete path (files w); ticks := ticks w |}.
Proof.
  intros Hf. rewrite !get_all_machines_cases. cbn [files].
  destruct (files w !! path) as [f|] eqn:Hp.
  - rewrite (listing_Permutation w _ _ (listdir_delete _ _ _ Hp)).
    rewrite listing_foreign_entry by done.
    rewrite (listing_entries_ext w (mk_world (delete path (files w)) (ticks w))); [done|].
    intros machine_id. cbn [files]. rewrite lookup_delete_ne; [done|].
    by apply foreign_not_machine_file.
  - by rewrite (delete_id _ _ Hp).
Qed.

End Listing.

(** X9. One file is enough to empty the listing. When the directory has
    an entry whose name passes the test on names and whose decoded
    identifier loads a true value with no readable [weight] (a dictionary
    without the key, a list, a number, a string), the exception is swallowed
    and [get_all_machines] returns the empty list whatever else is stored;
    [list_machines] then answers [success] with no machine and [count] 0. *)
Theorem X9_one_bad_file_empties_listing w filename e :
  is_Some (files w !! path_join DATA_DIR filename) →
  startswith "machine_" filename && endswith ".json" filename = true →
  truthy (load_weight_data (decoded_id filename) w) = true →
  subscript (load_weight_data (decoded_id filename) w) "weight" = inl e →
  get_all_machines w = []
  ∧ list_machines w
    = jsonify [("status", JStr "success"); ("machines", JList []); ("count", JInt 0)].
Proof.
  intros Hin Hname Ht Hx.
  assert (get_all_machines w = []) as H.
  { rewrite get_all_machines_cases.
    assert (existsb (entry_raises w) (listdir DATA_DIR (files w)) = true) as ->; [|done].
    apply existsb_exists. exists filename. split.
    - apply list_elem_of_In. by apply listdir_elem.
    - unfold entry_raises, machine_entry. rewrite Hname.
      fold (decoded_id filename). rewrite Ht, Hx. reflexivity. }
  split; [done|]. unfold list_machines. by rewrite H.
Qed.

(** Machine 1 has its record; the file of machine 7 holds an object
    without a weight. *)
Lemma X9_witness :
  get_weight "1"
    {| files := <[get_machine_file "7" := FJson (JDict [("kg", JInt 5)])]>
                  (files stored_10_5);
       ticks := 3 |}
  = found "1" (JFloat f_10_5) (JStr "2024-03-09T07:05:01")
  ∧ get_all_machines
      {| files := <[get_machine_file "7" := FJson (JDict [("kg", JInt 5)])]>
                    (files stored_10_5);
         ticks := 3 |} = [].
Proof.
  split; [vm_compute; reflexivity|].
  eapply (X9_one_bad_file_empties_listing _ "machine_7.json").
  - vm_compute. eauto.
  - reflexivity.
  - reflexivity.
  - vm_compute. reflexivity.
Defined.

Lemma get_all_machines_files w w' :
  files w = files w' → get_all_machines w = get_all_machines w'.
Proof.
  intros H. rewrite !get_all_machines_cases, H.
  apply listing_entries_ext. intros machine_id. by rewrite H.
Qed.

(** X10. [get_all_machines] only looks at the entries of [DATA_DIR]
    whose name starts with [machine_] and ends with [.json]. Creating,
    overwriting or removing any other file, in the directory or elsewhere,
    changes the list at most in the order the directory yields it. *)
Theorem X10_listing_ignores_other_files w path f n :
  foreign path = true →
  get_all_machines {| files := <[path := f]> (files w); ticks := n |}
    ≡ₚ get_all_machines w
  ∧ get_all_machines {| files := delete path (files w); ticks := n |}
    ≡ₚ get_all_machines w.
Proof.
  intros Hf.
  assert (get_all_machines {| files := delete path (files w); ticks := n |}
            ≡ₚ get_all_machines w) as Hd.
  { rewrite (get_all_machines_delete_foreign w path Hf).
    by rewrite (get_all_machines_files (mk_world (delete path (files w)) n)
                  (mk_world (delete path (files w)) (ticks w))). }
  split; [|done].
  rewrite (get_all_machines_delete_foreign (mk_world (<[path:=f]> (files w)) n) path Hf).
  cbn [files ticks]. by rewrite delete_insert_eq.
Qed.

Lemma X10_witness :
  foreign "machine_data/machine_1.json.bak" = true
  ∧ get_all_machines
      {| files := <[ "machine_data/machine_1.json.bak" := FJson (JList [JInt 1]) ]>
                    (files stored_10_5);
         ticks := 3 |}
    ≡ₚ get_all_machines stored_10_5.
Proof.
  split; [reflexivity|].
  apply (X10_listing_ignores_other_files stored_10_5
           "machine_data/machine_1.json.bak" (FJson (JList [JInt 1])) 3).
  reflexivity.
Defined.

(** X11. [get_all_machines] passes on the weight it finds in a file
    without converting it, and asks for [last_updated] with a default: a
    file that holds a weight and no [last_updated] is listed with
    [Unknown], where [get_weight] would need the [timestamp] to be
    there. *)
Theorem X11_last_updated_defaults_to_unknown w machine_id d x :
  store_ok w →
  plain machine_id = true →
  files w !! get_machine_file machine_id = Some (FJson (JDict d)) →
  dict_get "weight" d = Some x →
  dict_get "last_updated" d = None →
  summary machine_id x (JStr "Unknown") ∈ get_all_machines w.
Proof.
  intros Hok Hp Hf Hx Hu.
  pose proof (get_all_machines_complete w machine_id d x Hok Hp Hf Hx) as H.
  unfold last_updated_of in H. by rewrite Hu in H.
Qed.

(** A store written by hand. *)
Lemma X11_witness :
  summary "7" (JStr "5 kg") (JStr "Unknown")
  ∈ get_all_machines
      {| files := {[ get_machine_file "7" := FJson (JDict [("weight", JStr "5 kg")]) ]};
         ticks := 0 |}.
Proof.
  apply (X11_last_updated_defaults_to_unknown _ "7" [("weight", JStr "5 kg")]).
  - intros path v. cbn [files]. intros Hl _.
    apply lookup_singleton_Some in Hl as [_ Hv]. injection Hv as <-. by eexists _, _.
  - reflexivity.
  - apply lookup_singleton_eq.
  - reflexivity.
  - reflexivity.
Defined.

(** ** Health *)

(** [health_check] always answers [healthy] with status code 200. Its
    [machines_count] is the [count] of [list_machines] on the same store. It
    reads the clock once for its time stamp and leaves the files alone. *)
Lemma health_check_shape clock w :
  status_code (fst (health_check clock w)) = 200
  ∧ field "status" (fst (health_check clock w)) = Some (JStr "healthy")
  ∧ field "machines_count" (fst (health_check clock w)) = field "count" (list_machines w)
  ∧ field "timestamp" (fst (health_check clock w))
    = Some (JStr (isoformat (clock (ticks w))))
  ∧ files (snd (health_check clock w)) = files w
  ∧ ticks (snd (health_check clock w)) = S (ticks w).
Proof. by split_and!. Qed.

(** ** Runs of the server, continued *)

Section MoreRuns.

Variable clock : nat -> datetime.

Implicit Types (w : world) (machine_id : string) (rs : list request).

Lemma run_cons r rs w :
  run clock (r :: rs) w
  = (((r, fst (handle clock r w)) :: fst (run clock rs (snd (handle clock r w)))),
     snd (run clock rs (snd (handle clock r w)))).
Proof.
  cbn [run]. destruct (handle clock r w) as [resp w1]. cbn [fst snd].
  by destruct (run clock rs w1) as [log w2].
Qed.

(** What one request does to the files. *)
Lemma handle_path r w path :
  files (snd (handle clock r w)) !! path = files w !! path
  ∨ (writes path r
     ∧ is_Some (files (snd (handle clock r w)) !! path)).
Proof.
  destruct r as [machine_id payload fault | machine_id | |]; simpl; try by left.
  destruct (update_weight_outcome clock fault machine_id payload w)
    as [(weight & Ha & ->) | (e & message & c & _ & -> & _)]; [|by left].
  destruct (decide (path = get_machine_file machine_id)) as [->|Hne].
  - destruct fault; simpl.
    + right. split; [by exists machine_id, payload, NoFault, weight|].
      rewrite lookup_insert_eq. eauto.
    + by left.
    + right. split; [by exists machine_id, payload, DumpFails, weight|].
      rewrite lookup_insert_eq. eauto.
  - left. destruct fault; simpl; [|done|]; by rewrite lookup_insert_ne.
Qed.

Lemma run_paths rs w path :
  (is_Some (files w !! path) → is_Some (files (snd (run clock rs w)) !! path))
  ∧ (files (snd (run clock rs w)) !! path ≠ files w !! path →
     ∃ r, r ∈ rs ∧ writes path r).
Proof.
  revert w. induction rs as [|r rs IH]; intros w.
  - by split.
  - rewrite run_cons. cbn [snd].
    destruct (IH (snd (handle clock r w))) as [IH1 IH2].
    destruct (handle_path r w path) as [Heq | [Hw Hs]].
    + split.
      * intros H. apply IH1. by rewrite Heq.
      * intros H. rewrite <- Heq in H. destruct (IH2 H) as (r' & Hin & Hw).
        exists r'. split; [by right | done].
    + split.
      * intros _. by apply IH1.
      * intros _. exists r. split; [left | done].
Qed.

End MoreRuns.

(** X12. The server never removes a file: a path that holds a file keeps
    holding one through any sequence of requests. And the only paths whose
    content ever changes are the files of machines for which a submission
    with a weight [float] converts was received and got past [open]. *)
Theorem X12_files_are_never_removed clock rs w path :
  (is_Some (files w !! path) → is_Some (files (snd (run clock rs w)) !! path))
  ∧ (files (snd (run clock rs w)) !! path ≠ files w !! path →
     ∃ r, r ∈ rs ∧ writes path r).
Proof. apply run_paths. Qed.

Section Served.

Variable clock : nat -> datetime.

Implicit Types (w : world) (machine_id : string) (rs : list request).

Lemma serves_files machine_id acc w w' :
  files w' !! get_machine_file machine_id = files w !! get_machine_file machine_id →
  serves machine_id acc w → serves machine_id acc w'.
Proof.
  intros H. destruct acc as [resp|]; simpl.
  - intros (weight & t1 & t2 & Hw & Hf). exists weight, t1, t2. by rewrite H.
  - intros Hn v. rewrite H. apply Hn.
Qed.

Lemma acked_other machine_id m payload fault resp :
  m ≠ machine_id → acked machine_id (Submit m payload fault, resp) = false.
Proof.
  intros Hne. unfold acked. simpl.
  destruct (String.eqb_spec m machine_id); [done|]. done.
Qed.

Lemma handle_serves machine_id r w acc :
  garbles machine_id r = false →
  serves machine_id acc w →
  serves machine_id
    (if acked machine_id (r, fst (handle clock r w))
     then Some (fst (handle clock r w)) else acc)
    (snd (handle clock r w)).
Proof.
  intros Hg Hs.
  destruct r as [m payload fault | m | |]; try done.
  cbn [handle].
  destruct (decide (m = machine_id)) as [->|Hne].
  - destruct (update_weight_outcome clock fault machine_id payload w)
      as [(weight & Ha & ->) | (e & message & c & _ & -> & _)].
    + destruct fault.
      * unfold acked, after_save. cbn [fst snd]. rewrite String.eqb_refl.
        assert (is_success (ack machine_id weight (clock (2 + ticks w)%nat)) = true)
          as -> by reflexivity.
        cbn [andb serves files]. exists weight, (clock (ticks w)), (clock (1 + ticks w)%nat).
        split; [reflexivity | apply lookup_insert_eq].
      * assert (acked machine_id
                  (Submit machine_id payload OpenFails,
                   fst (after_save clock OpenFails machine_id weight w)) = false) as ->.
        { unfold acked. cbn [fst snd after_save]. by rewrite andb_false_r. }
        by apply (serves_files machine_id acc w).
      * simpl in Hg. rewrite String.eqb_refl, Ha in Hg. done.
    + cbn [fst snd].
      assert (acked machine_id (Submit machine_id payload fault, failure message c)
              = false) as ->.
      { unfold acked. cbn [fst snd]. by rewrite andb_false_r. }
      done.
  - rewrite acked_other by done.
    apply (serves_files machine_id acc w); [|done].
    destruct (update_weight_outcome clock fault m payload w)
      as [(weight & _ & ->) | (e & message & c & _ & -> & _)]; [|done].
    assert (get_machine_file m ≠ get_machine_file machine_id) as Hf
      by (by intros ?%get_machine_file_inj).
    destruct fault; simpl; [|done|]; by rewrite lookup_insert_ne.
Qed.

Lemma run_serves machine_id rs w acc :
  (∀ r, r ∈ rs → garbles machine_id r = false) →
  serves machine_id acc w →
  serves machine_id
    (fold_left (fun acc e => if acked machine_id e then Some (snd e) else acc)
       (fst (run clock rs w)) acc)
    (snd (run clock rs w)).
Proof.
  revert w acc. induction rs as [|r rs IH]; intros w acc Hg Hs; [done|].
  rewrite run_cons. cbn [fst snd fold_left].
  apply IH.
  - intros r' Hin. apply Hg. by right.
  - apply handle_serves; [|done]. apply Hg. left.
Qed.

End Served.

(** X13. The weight served is the weight last acknowledged. Start from
    an empty directory and take any sequence of requests in which no write
    to the file of a machine failed after [open]. If no submission for the
    machine was acknowledged, [get_weight] answers [no_data]; otherwise it
    answers [success] with the weight of the last acknowledgement given for
    that machine, whatever was submitted before or for other machines and
    whatever submissions were refused in between. *)
Theorem X13_last_acknowledged_weight_is_served clock rs machine_id :
  (∀ r, r ∈ rs → garbles machine_id r = false) →
  match last_ack machine_id (fst (run clock rs initial)) with
  | Some resp =>
      ∃ weight timestamp,
        field "weight" resp = Some (JFloat weight)
        ∧ get_weight machine_id (snd (run clock rs initial))
          = found machine_id (JFloat weight) timestamp
  | None =>
      get_weight machine_id (snd (run clock rs initial)) = no_data machine_id
  end.
Proof.
  intros Hg.
  pose proof (run_serves clock machine_id rs initial None Hg) as H.
  fold (last_ack machine_id (fst (run clock rs initial))) in H.
  destruct (last_ack machine_id (fst (run clock rs initial))) as [resp|].
  - destruct H as (weight & t1 & t2 & Hw & Hf).
    { intros v. simpl. by rewrite lookup_empty. }
    exists weight, (JStr (isoformat t1)). split; [done|].
    by apply (get_weight_record _ _ _ _ _ _ Hf).
  - apply get_weight_no_record. apply H.
    intros v. simpl. by rewrite lookup_empty.
Qed.

Lemma X13_witness :
  ∃ weight timestamp,
    field "weight" (ack "1" f_12 (tick_clock 5)) = Some (JFloat weight)
    ∧ get_weight "1"
        (snd (run tick_clock
                [Submit "1" (weight_payload (JFloat f_10_5)) NoFault;
                 Submit "1" (weight_payload (JFloat f_12)) NoFault;
                 Submit "3" (weight_payload (JFloat f_10_5)) DumpFails;
                 Submit "1" (weight_payload (JStr "abc")) NoFault;
                 Submit "1" (weight_payload (JFloat f_10_5)) OpenFails] initial))
      = found "1" (JFloat weight) timestamp.
Proof.
  apply (X13_last_acknowledged_weight_is_served tick_clock
           [Submit "1" (weight_payload (JFloat f_10_5)) NoFault;
            Submit "1" (weight_payload (JFloat f_12)) NoFault;
            Submit "3" (weight_payload (JFloat f_10_5)) DumpFails;
            Submit "1" (weight_payload (JStr "abc")) NoFault;
            Submit "1" (weight_payload (JFloat f_10_5)) OpenFails] "1").
  intros r Hin.
  repeat (apply elem_of_cons in Hin as [-> | Hin]; [reflexivity|]).
  by apply elem_of_nil in Hin.
Defined.

Section Timed.

Variable clock : nat -> datetime.

Lemma timed_records_later w w' :
  files w' = files w → (ticks w ≤ ticks w')%nat →
  timed_records clock w → timed_records clock w'.
Proof.
  intros Hf Ht H path v Hp. rewrite Hf in Hp.
  destruct (H path v Hp) as (m & weight & i & -> & -> & Hi).
  exists m, weight, i. split_and!; [done | done | lia].
Qed.

Lemma handle_timed_records r w :
  timed_records clock w → timed_records clock (snd (handle clock r w)).
Proof.
  intros H.
  destruct r as [machine_id payload fault | machine_id | |]; cbn [handle snd]; try done.
  - destruct (update_weight_outcome clock fault machine_id payload w)
      as [(weight & _ & ->) | (e & message & c & _ & -> & _)]; [|done].
    destruct fault; cbn [after_save snd].
    + intros path v. cbn [files ticks].
      destruct (decide (get_machine_file machine_id = path)) as [<-|Hne].
      * rewrite lookup_insert_eq. intros [= <-].
        exists machine_id, weight, (ticks w). split_and!; [done | done | lia].
      * rewrite lookup_insert_ne by done. intros Hp.
        destruct (H path v Hp) as (m & weight' & i & -> & -> & Hi).
        exists m, weight', i. split_and!; [done | done | lia].
    + apply (timed_records_later w); [done | simpl; lia | done].
    + intros path v. cbn [files ticks].
      destruct (decide (get_machine_file machine_id = path)) as [<-|Hne].
      * by rewrite lookup_insert_eq.
      * rewrite lookup_insert_ne by done. intros Hp.
        destruct (H path v Hp) as (m & weight' & i & -> & -> & Hi).
        exists m, weight', i. split_and!; [done | done | lia].
  - apply (timed_records_later w); [done | simpl; lia | done].
Qed.

Lemma run_timed_records rs w :
  timed_records clock w → timed_records clock (snd (run clock rs w)).
Proof.
  revert w. induction rs as [|r rs IH]; intros w H; [done|].
  rewrite run_cons. cbn [snd]. by apply IH, handle_timed_records.
Qed.

End Timed.

(** X14. In every store the server reaches from an empty directory, the
    [timestamp] and the [last_updated] of a record are two consecutive
    readings of the clock, both made before any reading still to come. On a
    clock that never runs backwards, [last_updated] is therefore not earlier
    than [timestamp], and no later answer carries a time stamp earlier than
    either of them. *)
Theorem X14_records_are_stamped_in_the_past clock rs path v :
  files (snd (run clock rs initial)) !! path = Some (FJson v) →
  ∃ machine_id weight (i : nat),
    path = get_machine_file machine_id
    ∧ v = record machine_id weight (clock i) (clock (S i))
    ∧ (S i < ticks (snd (run clock rs initial)))%nat
    ∧ (monotone clock →
       dt_le (clock i) (clock (S i))
       ∧ ∀ j : nat, (ticks (snd (run clock rs initial)) ≤ j)%nat →
           dt_le (clock (S i)) (clock j)).
Proof.
  intros Hp.
  assert (timed_records clock initial) as H0.
  { intros p x Hl. simpl in Hl. by rewrite lookup_empty in Hl. }
  destruct (run_timed_records clock rs initial H0 path v Hp)
    as (m & weight & i & -> & -> & Hi).
  exists m, weight, i. split_and!; try done.
  intros Hmono. split.
  - apply Hmono. lia.
  - intros j Hj. apply Hmono. lia.
Qed.

Lemma X14_witness :
  ∃ machine_id weight (i : nat),
    get_machine_file "1" = get_machine_file machine_id
    ∧ record "1" f_12 (tick_clock 3) (tick_clock 4)
      = record machine_id weight (tick_clock i) (tick_clock (S i))
    ∧ (S i < ticks (snd (run tick_clock
                           [Submit "1" (weight_payload (JFloat f_10_5)) NoFault;
                            Submit "1" (weight_payload (JFloat f_12)) NoFault]
                           initial)))%nat
    ∧ (monotone tick_clock →
       dt_le (tick_clock i) (tick_clock (S i))
       ∧ ∀ j : nat,
           (ticks (snd (run tick_clock
                          [Submit "1" (weight_payload (JFloat f_10_5)) NoFault;
                           Submit "1" (weight_payload (JFloat f_12)) NoFault]
                          initial)) ≤ j)%nat →
           dt_le (tick_clock (S i)) (tick_clock j)).
Proof.
  apply (X14_records_are_stamped_in_the_past tick_clock
           [Submit "1" (weight_payload (JFloat f_10_5)) NoFault;
            Submit "1" (weight_payload (JFloat f_12)) NoFault]).
  vm_compute. reflexivity.
Defined.

(** X15. The listing and [get_weight] agree on every store the server
    reaches from an empty directory. Each summary of [get_all_machines]
    names a machine for which [get_weight] answers [success] with the same
    weight; and a machine for which [get_weight] answers [success], and
    whose identifier contains neither [machine_] nor [.json], has a summary
    with that weight in the list. *)
Theorem X15_listing_agrees_with_get_weight clock rs :
  (∀ s, s ∈ get_all_machines (snd (run clock rs initial)) →
     ∃ machine_id weight last_updated timestamp,
       s = summary machine_id (JFloat weight) last_updated
       ∧ get_weight machine_id (snd (run clock rs initial))
         = found machine_id (JFloat weight) timestamp)
  ∧ (∀ machine_id,
       plain machine_id = true →
       field "status" (get_weight machine_id (snd (run clock rs initial)))
       = Some (JStr "success") →
       ∃ weight last_updated timestamp,
         get_weight machine_id (snd (run clock rs initial))
         = found machine_id (JFloat weight) timestamp
         ∧ summary machine_id (JFloat weight) last_updated
           ∈ get_all_machines (snd (run clock rs initial))).
Proof.
  assert (all_records (snd (run clock rs initial))) as Hrec.
  { eapply (run_all_records clock rs initial); [apply surjective_pairing|].
    apply all_records_initial. }
  split.
  - intros s Hs.
    destruct (get_all_machines_sound _ s Hrec Hs) as (m & weight & t1 & t2 & Hf & ->).
    exists m, weight, (JStr (strftime t2)), (JStr (isoformat t1)).
    split; [done|]. by apply (get_weight_record _ _ _ _ _ _ Hf).
  - intros m Hp Hst.
    destruct (files (snd (run clock rs initial)) !! get_machine_file m)
      as [[v|]|] eqn:Hf.
    + destruct (Hrec _ _ Hf) as (m' & weight & t1 & t2 & Hm & ->).
      apply get_machine_file_inj in Hm. subst m'.
      exists weight, (JStr (strftime t2)), (JStr (isoformat t1)). split.
      * by apply (get_weight_record _ _ _ _ _ _ Hf).
      * apply (get_all_machines_complete _ m
                 [("machine_id", JStr m); ("weight", JFloat weight);
                  ("timestamp", JStr (isoformat t1));
                  ("last_updated", JStr (strftime t2))] (JFloat weight));
          [by apply all_records_store_ok | done | done | reflexivity].
    + rewrite (get_weight_garbage _ _ Hf) in Hst. done.
    + rewrite (get_weight_missing _ _ Hf) in Hst. done.
Qed.

(** X18. On every store the server reaches from an empty directory,
    [get_weight] answers with status code 200, whatever the machine asked
    for: [no_data] when the machine has no file or the file a failed write
    left behind, and otherwise [success] with the float of the record and
    the text of a reading of the clock made before. The handler for status
    500 is never reached. *)
Theorem X18_get_weight_never_fails clock rs machine_id :
  status_code (get_weight machine_id (snd (run clock rs initial))) = 200
  ∧ (get_weight machine_id (snd (run clock rs initial)) = no_data machine_id
     ∨ ∃ weight (i : nat),
         (i < ticks (snd (run clock rs initial)))%nat
         ∧ get_weight machine_id (snd (run clock rs initial))
           = found machine_id (JFloat weight) (JStr (isoformat (clock i)))).
Proof.
  assert (timed_records clock (snd (run clock rs initial))) as Hrec.
  { apply run_timed_records. intros path v H. simpl in H. by rewrite lookup_empty in H. }
  destruct (files (snd (run clock rs initial)) !! get_machine_file machine_id)
    as [[v|]|] eqn:Hf.
  - destruct (Hrec _ _ Hf) as (m & weight & i & Hm & -> & Hi).
    rewrite (get_weight_record _ _ _ _ _ _ Hf). split; [done|].
    right. exists weight, i. split; [lia | done].
  - rewrite (get_weight_garbage _ _ Hf). split; [done | by left].
  - rewrite (get_weight_missing _ _ Hf). split; [done | by left].
Qed.

(** ** The page *)

Section Page.

Import Client.

Implicit Types (p : page).

Lemma auto_ok_view p p' : auto_view p' = auto_view p → auto_ok p → auto_ok p'.
Proof.
  unfold auto_view, auto_ok. intros [= -> -> -> -> -> -> -> ->] H. exact H.
Qed.

Lemma auto_view_getWeight p : auto_view (getWeight p) = auto_view p.
Proof. reflexivity. Qed.

Lemma auto_view_selectMachine machineId p :
  auto_view (selectMachine machineId p) = auto_view p.
Proof. reflexivity. Qed.

Lemma auto_view_handleError message p : auto_view (handleError message p) = auto_view p.
Proof. reflexivity. Qed.

Lemma auto_ok_resetCountdown p : auto_ok p → auto_ok (resetCountdown p).
Proof.
  intros H. unfold resetCountdown.
  destruct (autoRefresh p) eqn:Ha; [|exact H].
  unfold auto_ok in H. rewrite Ha in H.
  destruct H as [Hn (a & c & H1 & H2 & H3 & H4 & H5 & H6 & _ & _ & H9)].
  unfold updateAutoInfo. cbn [autoRefresh with_countdown]. rewrite Ha.
  unfold auto_ok. cbn. rewrite Ha.
  split; [done|]. exists a, c. split_and!; try done.
Qed.

Lemma auto_ok_displayWeight data p :
  auto_ok p → auto_ok (fst (displayWeight data p)).
Proof.
  intros H. unfold displayWeight.
  destruct (prop data "status") as [e|status]; cbn [fst].
  { by apply (auto_ok_view p). }
  set (p1 := with_document _ p).
  assert (auto_ok p1) as H1 by (by apply (auto_ok_view p)).
  assert (∀ m, auto_ok (handleError m p1)) as He
    by (intros m; by apply (auto_ok_view p1)).
  destruct status as [[| | | |s| |]|]; try apply He.
  destruct (String.eqb_spec s "success") as [->|Hs1].
  { cbn [fst]. apply auto_ok_resetCountdown. by apply (auto_ok_view p1). }
  destruct (String.eqb_spec s "no_data") as [->|Hs2].
  { cbn [fst]. by apply (auto_ok_view p1). }
  revert He. clear -Hs1 Hs2. intros He.
  repeat (destruct s as [|[[] [] [] [] [] [] [] []] s]; try apply He; try done).
Qed.

Lemma auto_ok_countdown_tick p : auto_ok p → auto_ok (countdown_tick p).
Proof.
  intros H. unfold auto_ok in H.
  destruct (autoRefresh p) eqn:Ha.
  - destruct H as [Hn (a & c & H1 & H2 & H3 & H4 & H5 & H6 & H7 & _ & H9)].
    unfold countdown_tick. cbn [countdown with_countdown].
    destruct (Z.leb_spec (countdown p - 1) 0) as [Hle|Hgt];
      unfold updateAutoInfo; cbn [autoRefresh with_countdown]; rewrite Ha;
      unfold auto_ok; cbn; rewrite Ha;
      (split; [done|]); exists a, c; split_and!; try done; lia.
  - destruct H as [Hn (Ht & Hi & Hb)].
    unfold countdown_tick. cbn [countdown with_countdown].
    destruct (countdown p - 1 <=? 0);
      unfold updateAutoInfo; cbn [autoRefresh with_countdown]; rewrite Ha;
      unfold auto_ok; cbn; rewrite Ha; done.
Qed.

Lemma auto_ok_toggleAuto p : auto_ok p → auto_ok (toggleAuto p).
Proof.
  intros H. unfold auto_ok in H. unfold toggleAuto. cbn [autoRefresh].
  destruct (autoRefresh p) eqn:Ha; cbn [negb].
  - destruct H as [Hn (a & c & H1 & H2 & H3 & H4 & H5 & H6 & H7 & _ & H9)].
    unfold stopAutoRefresh. cbn [autoInterval with_document]. rewrite H1.
    destruct a as [|a']; [lia|]. cbn [clear_if_set clearInterval countdownInterval].
    rewrite H2. destruct c as [|c']; [lia|].
    unfold auto_ok. cbn. split; [done|]. split_and!; try done.
    rewrite H6. apply map_eq. intros i.
    rewrite lookup_empty.
    destruct (decide (i = S c')) as [->|Hc]; [by rewrite lookup_delete_eq|].
    rewrite lookup_delete_ne by done.
    destruct (decide (i = S a')) as [->|Hi]; [by rewrite lookup_delete_eq|].
    rewrite lookup_delete_ne by done.
    by rewrite !lookup_insert_ne, lookup_empty by done.
  - destruct H as [Hn (Ht & Hi & Hb)].
    unfold startAutoRefresh, updateAutoInfo, setInterval, auto_ok. cbn.
    rewrite Ht. split; [lia|].
    exists (next_timer p), (S (next_timer p)). split_and!; try done; lia.
Qed.

Lemma auto_ok_settle k r message p : auto_ok p → auto_ok (settle k r message p).
Proof.
  intros H. unfold settle. destruct (pending p !! k); [|done].
  set (p1 := mk_page _ _ _ _ _ _ _ _ _).
  assert (auto_ok p1) as H1 by (by apply (auto_ok_view p)).
  destruct r as [body|]; [destruct (response_json body) as [data|]|].
  - pose proof (auto_ok_displayWeight data p1 H1) as Hd.
    destruct (displayWeight data p1) as [p2 [e|]]; [|done].
    by apply (auto_ok_view p2).
  - by apply (auto_ok_view p1).
  - by apply (auto_ok_view p1).
Qed.

Lemma auto_ok_step e p : auto_ok p → auto_ok (step e p).
Proof.
  intros H. destruct e as [|machineId| | |id|k r message]; cbn [step].
  - by apply (auto_ok_view p).
  - by apply (auto_ok_view p).
  - by apply (auto_ok_view p).
  - by apply auto_ok_toggleAuto.
  - destruct (timers p !! id) as [[|]|]; [|by apply auto_ok_countdown_tick|done].
    by apply (auto_ok_view p).
  - by apply auto_ok_settle.
Qed.

Lemma auto_ok_initial : auto_ok initial_page.
Proof. unfold auto_ok. cbn. split; [lia | done]. Qed.

Lemma auto_ok_play es p : auto_ok p → auto_ok (play es p).
Proof.
  revert p. induction es as [|e es IH]; intros p H; [done|].
  cbn [play fold_left]. apply IH. by apply auto_ok_step.
Qed.

End Page.

(** X16. The automatic refresh of the page stays consistent through
    every sequence of loads, clicks, firing intervals and returning
    requests. While it is off no interval is set and the line under the
    buttons is empty. While it is on exactly two intervals are set, the one
    that calls [getWeight] and the one that counts down, the count is
    between 1 and 5, and the line shows that count. *)
Theorem X16_automatic_refresh_is_consistent es :
  if Client.autoRefresh (Client.play es Client.initial_page) then
    (∃ a c : nat,
       a ≠ c
       ∧ Client.autoInterval (Client.play es Client.initial_page) = Some a
       ∧ Client.countdownInterval (Client.play es Client.initial_page) = Some c
       ∧ Client.timers (Client.play es Client.initial_page)
         = <[c := Client.CbCountdown]> (<[a := Client.CbGetWeight]> ∅))
    ∧ 1 ≤ Client.countdown (Client.play es Client.initial_page) ≤ 5
    ∧ Client.autoInfo_textContent (Client.document (Client.play es Client.initial_page))
      = auto_text (Client.countdown (Client.play es Client.initial_page))
  else
    Client.timers (Client.play es Client.initial_page) = ∅
    ∧ Client.autoInfo_textContent (Client.document (Client.play es Client.initial_page))
      = "".
Proof.
  pose proof (auto_ok_play es Client.initial_page auto_ok_initial) as [_ H].
  destruct (Client.autoRefresh (Client.play es Client.initial_page)).
  - destruct H as (a & c & H1 & H2 & H3 & H4 & H5 & H6 & H7 & H8 & _).
    split; [|split; [exact H7 | exact H8]].
    exists a, c. split_and!; try done. lia.
  - by destruct H as (Ht & Hi & _).
Qed.

(** The automatic refresh is switched on, counts down six times and is
    switched off. *)
Example automatic_refresh_counts_down :
  Client.countdown
    (Client.play [Client.Load; Client.ClickAuto; Client.Fire 2; Client.Fire 2;
                  Client.Fire 2; Client.Fire 2; Client.Fire 2; Client.Fire 2]
       Client.initial_page) = 4
  ∧ Client.autoInfo_textContent
      (Client.document
         (Client.play [Client.Load; Client.ClickAuto; Client.Fire 2; Client.Fire 2;
                       Client.Fire 2; Client.Fire 2; Client.Fire 2; Client.Fire 2]
            Client.initial_page))
    = "Next refresh in 4 seconds..."
  ∧ Client.timers
      (Client.play [Client.Load; Client.ClickAuto; Client.Fire 2; Client.ClickAuto]
         Client.initial_page) = ∅.
Proof. split_and!; vm_compute; reflexivity. Qed.

Section Shown.

Import Client.

Lemma resetCountdown_shown p :
  content (document (resetCountdown p)) = content (document p)
  ∧ statusDot_className (document (resetCountdown p)) = statusDot_className (document p)
  ∧ getWeightBtn_disabled (document (resetCountdown p))
    = getWeightBtn_disabled (document p).
Proof.
  unfold resetCountdown, updateAutoInfo. destruct (autoRefresh p) eqn:Ha; [|done].
  cbn [autoRefresh with_countdown]. by rewrite Ha.
Qed.

Lemma response_json_found machine_id weight t :
  is_finite weight = true →
  response_json (JDict (App.body (found machine_id (JFloat weight) (JStr t))))
  = Some (JDict (App.body (found machine_id (JFloat weight) (JStr t)))).
Proof. intros Hw. unfold response_json. cbn. by rewrite Hw. Qed.

Lemma response_json_not_finite machine_id weight t :
  is_finite weight = false →
  response_json (JDict (App.body (found machine_id (JFloat weight) t))) = None.
Proof. intros Hw. unfold response_json. cbn. by rewrite Hw. Qed.

Lemma settle_found k machine_id weight t message p m :
  pending p !! k = Some m →
  is_finite weight = true →
  content
    (document
       (settle k (Response (JDict (App.body (found machine_id (JFloat weight) (JStr t)))))
          message p))
  = PaneWeight (Some (JFloat weight)) (Some (JStr machine_id)) (Some (JStr t))
  ∧ statusDot_className
      (document
         (settle k (Response (JDict (App.body (found machine_id (JFloat weight) (JStr t)))))
            message p))
    = "status-dot success"
  ∧ getWeightBtn_disabled
      (document
         (settle k (Response (JDict (App.body (found machine_id (JFloat weight) (JStr t)))))
            message p)) = false.
Proof.
  intros Hk Hw. unfold settle. rewrite Hk, (response_json_found _ _ _ Hw).
  set (p1 := mk_page _ _ _ _ _ _ _ _ _).
  set (p2 := updateStatus "success" "Data received"
               (with_document (set_getWeightBtn false "🔄 Get Weight" (document p1)) p1)).
  assert (displayWeight (JDict (App.body (found machine_id (JFloat weight) (JStr t)))) p1
          = (resetCountdown
               (with_document
                  (set_content
                     (PaneWeight (Some (JFloat weight)) (Some (JStr machine_id))
                        (Some (JStr t)))
                     (document p2)) p2),
             None)) as -> by reflexivity.
  destruct (resetCountdown_shown
              (with_document
                 (set_content
                    (PaneWeight (Some (JFloat weight)) (Some (JStr machine_id))
                       (Some (JStr t)))
                    (document p2)) p2))
    as (-> & -> & ->).
  done.
Qed.

Lemma settle_not_json k machine_id weight t message p m :
  pending p !! k = Some m →
  is_finite weight = false →
  content
    (document
       (settle k (Response (JDict (App.body (found machine_id (JFloat weight) t))))
          message p))
  = PaneError (error_text message)
  ∧ statusDot_className
      (document
         (settle k (Response (JDict (App.body (found machine_id (JFloat weight) t))))
            message p))
    = "status-dot error"
  ∧ getWeightBtn_disabled
      (document
         (settle k (Response (JDict (App.body (found machine_id (JFloat weight) t))))
            message p)) = false.
Proof.
  intros Hk Hw. unfold settle. rewrite Hk, (response_json_not_finite _ _ _ Hw).
  unfold handleError, error_text. cbn. by destruct (String.eqb message "").
Qed.

Lemma settle_no_data k machine_id message p m :
  pending p !! k = Some m →
  content
    (document (settle k (Response (JDict (App.body (no_data machine_id)))) message p))
  = PaneNoData (selectedMachine p)
      (Some (JStr ("No weight data available for Machine " +:+ machine_id)))
  ∧ statusDot_className
      (document (settle k (Response (JDict (App.body (no_data machine_id)))) message p))
    = "status-dot waiting"
  ∧ getWeightBtn_disabled
      (document (settle k (Response (JDict (App.body (no_data machine_id)))) message p))
    = false.
Proof. intros Hk. unfold settle. rewrite Hk. done. Qed.

End Shown.

(** X17. The page shows what was last acknowledged, when the browser can
    read it. Let the server answer any sequence of requests, from an empty
    directory, in which no write to the file of a machine failed after
    [open], and let the answer of [get_weight] for that machine come back
    to one of the requests the page has in flight. If no submission for
    the machine was acknowledged, the page shows the note for the machine
    selected on the page with the message of the server, and the status
    dot of waiting. If one was, and the weight of the last acknowledgement
    is finite, the page shows the weight card with that weight and the
    identifier of the machine, and the status dot of success. If that
    weight is infinite or not a number, the body [jsonify] sent is not
    JSON, [response.json()] throws, and the page shows the error pane with
    the message of that error and the status dot of error. In every case
    the [Get Weight] button is enabled again. *)
Theorem X17_page_shows_last_acknowledged_weight clock rs machine_id k p m message :
  (∀ r, r ∈ rs → garbles machine_id r = false) →
  Client.pending p !! k = Some m →
  Client.getWeightBtn_disabled
    (Client.document (answered clock rs machine_id k message p)) = false
  ∧ match last_ack machine_id (fst (run clock rs initial)) with
    | Some resp =>
        ∃ weight,
          field "weight" resp = Some (JFloat weight)
          ∧ if is_finite weight then
              (∃ timestamp,
                 Client.content
                   (Client.document (answered clock rs machine_id k message p))
                 = Client.PaneWeight (Some (JFloat weight)) (Some (JStr machine_id))
                     (Some (JStr timestamp)))
              ∧ Client.statusDot_className
                  (Client.document (answered clock rs machine_id k message p))
                = "status-dot success"
            else
              Client.content (Client.document (answered clock rs machine_id k message p))
              = Client.PaneError (error_text message)
              ∧ Client.statusDot_className
                  (Client.document (answered clock rs machine_id k message p))
                = "status-dot error"
    | None =>
        Client.content (Client.document (answered clock rs machine_id k message p))
        = Client.PaneNoData (Client.selectedMachine p)
            (Some (JStr ("No weight data available for Machine " +:+ machine_id)))
        ∧ Client.statusDot_className
            (Client.document (answered clock rs machine_id k message p))
          = "status-dot waiting"
    end.
Proof.
  intros Hg Hk. unfold answered.
  pose proof (run_serves clock machine_id rs initial None Hg) as H.
  fold (last_ack machine_id (fst (run clock rs initial))) in H.
  destruct (last_ack machine_id (fst (run clock rs initial))) as [resp|].
  - destruct H as (weight & t1 & t2 & Hw & Hf).
    { intros v. simpl. by rewrite lookup_empty. }
    rewrite (get_weight_record _ _ _ _ _ _ Hf).
    destruct (is_finite weight) eqn:Hfin.
    + destruct (settle_found k machine_id weight (isoformat t1) message p m Hk Hfin)
        as (Hc & Hd & Hb).
      split; [done|]. exists weight. rewrite Hfin. split; [done|].
      split; [|done]. by exists (isoformat t1).
    + destruct (settle_not_json k machine_id weight (JStr (isoformat t1)) message p m
                  Hk Hfin) as (Hc & Hd & Hb).
      split; [done|]. exists weight. rewrite Hfin. done.
  - rewrite (get_weight_no_record machine_id (snd (run clock rs initial))).
    + destruct (settle_no_data k machine_id message p m Hk) as (Hc & Hd & Hb). done.
    + apply H. intros v. simpl. by rewrite lookup_empty.
Qed.

Lemma X17_witness :
  Client.content
    (Client.document
       (answered tick_clock
          [Submit "1" (weight_payload (JFloat f_10_5)) NoFault;
           Submit "1" (weight_payload (JFloat f_12)) NoFault]
          "1" 0 "" (Client.play [Client.Load] Client.initial_page)))
  = Client.PaneWeight (Some (JFloat f_12)) (Some (JStr "1"))
      (Some (JStr "2024-03-09T07:05:01.000003")).
Proof.
  destruct (X17_page_shows_last_acknowledged_weight tick_clock
              [Submit "1" (weight_payload (JFloat f_10_5)) NoFault;
               Submit "1" (weight_payload (JFloat f_12)) NoFault]
              "1" 0 (Client.play [Client.Load] Client.initial_page) "1" "")
    as [_ H].
  - intros r Hin.
    repeat (apply elem_of_cons in Hin as [-> | Hin]; [reflexivity|]).
    by apply elem_of_nil in Hin.
  - reflexivity.
  - vm_compute. reflexivity.
Defined.

(** Machine 1 reports the string [inf], which [update_weight] acknowledges;
    the page then cannot read the answer of [get_weight] and shows the
    message of the error. *)
Example page_after_infinite_weight :
  is_success
    (handle tick_clock (Submit "1" (weight_payload (JStr "inf")) NoFault) initial).1
  = true
  ∧ Client.content
      (Client.document
         (answered tick_clock [Submit "1" (weight_payload (JStr "inf")) NoFault]
            "1" 0 "Unexpected token I in JSON"
            (Client.play [Client.Load] Client.initial_page)))
    = Client.PaneError (JStr "Unexpected token I in JSON").
Proof. split; vm_compute; reflexivity. Qed.
